(** * Highscore service of asteroids: src/highscore-cloudrun-service/main.py

    A shallow embedding of the Cloud Run handler that keeps the top-10
    highscore list in one blob, and of the JSON text format the list is
    persisted in. *)

From Stdlib Require Import List String Ascii ZArith NArith Bool Lia.
From Stdlib Require Import Permutation Sorted.
From Stdlib Require Import Decimal DecimalPos DecimalN.
Import ListNotations.

Open Scope N_scope.

(** ** Text

    A Python [str] is a sequence of code points; it is modelled as a list
    of [N]. ASCII literals of the source are turned into code-point lists
    with [txt]. *)

Definition text := list N.

Definition txt (s : string) : text :=
  map (fun a => N_of_ascii a) (list_ascii_of_string s).

(** ** Python floats after [round(_, 1)]

    Every float the code compares or stores is the result of
    [round(float(s), 1)] (or was read back from the persisted list).
    A finite value is the nearest double to [k / 10]; it is kept as the
    integer [k] of tenths, which preserves the IEEE order between such
    values (and their order with 0 and 100000). The three non-finite
    values are kept as they are: [float("nan")] and [float("inf")] parse,
    and [round] returns them unchanged. *)

Inductive pyfloat :=
| Fin (k : Z)
| PInf
| NInf
| NaN.

(** IEEE [<]: every comparison with NaN is false. *)
Definition flt (a b : pyfloat) : bool :=
  match a, b with
  | Fin x, Fin y => (x <? y)%Z
  | NInf, (Fin _ | PInf) => true
  | Fin _, PInf => true
  | _, _ => false
  end.

(** IEEE [==]. *)
Definition feq (a b : pyfloat) : bool :=
  match a, b with
  | Fin x, Fin y => (x =? y)%Z
  | PInf, PInf | NInf, NInf => true
  | _, _ => false
  end.

(** IEEE [<=]. *)
Definition fle (a b : pyfloat) : bool := flt a b || feq a b.

(** Unary minus. *)
Definition fneg (a : pyfloat) : pyfloat :=
  match a with
  | Fin x => Fin (- x)
  | PInf => NInf
  | NInf => PInf
  | NaN => NaN
  end.

(** ** Entries and the leaderboard

    [{"name": name, "score": score, "timestamp": ...isoformat()}] *)

Record entry := mkEntry {
  name : text;
  score : pyfloat;
  timestamp : text
}.

Definition leaderboard := list entry.

(** ** [sorted(data, key=lambda x: -x["score"])]

    Python's [sorted] copies the list and runs CPython's [list.sort] on
    it, comparing the keys with [<] only. Below, [sorted_by_key] is a
    stable insertion sort (an element is put before the first element
    whose key is not smaller than its own); on keys without NaN, a total
    preorder, every stable sort returns this list. [list_sort] is the
    algorithm of CPython 3.11 ([Objects/listobject.c]) on lists shorter
    than 64 elements, the only ones the service itself ever sorts (at most
    ten stored entries and the new one): the first run is counted, a
    strictly descending run is reversed, and the remaining elements are
    inserted one by one with a binary search. Longer lists would be split
    into several runs and merged with galloping; this is not modelled, and
    [py_sorted] uses the insertion sort for them (the same result unless a
    key is NaN). With NaN keys [<] is not a preorder, and the result
    depends on the exact comparisons made, which [list_sort] reproduces. *)

Definition key (e : entry) : pyfloat := fneg (score e).

Fixpoint insert_by_key (x : entry) (l : list entry) : list entry :=
  match l with
  | [] => [x]
  | y :: l' => if flt (key y) (key x) then y :: insert_by_key x l' else x :: y :: l'
  end.

Fixpoint sorted_by_key (l : list entry) : list entry :=
  match l with
  | [] => []
  | x :: l' => insert_by_key x (sorted_by_key l')
  end.

(** [ISLT(x, y)]: the key comparison [x < y] of the sort. *)
Definition islt (x y : entry) : bool := flt (key x) (key y).

(** Length of the run continuing after [prev]: strictly descending keys
    ([run_desc]) or non-descending keys ([run_asc]). *)
Fixpoint run_desc (prev : entry) (l : list entry) : nat :=
  match l with
  | [] => 0%nat
  | x :: l' => if islt x prev then S (run_desc x l') else 0%nat
  end.

Fixpoint run_asc (prev : entry) (l : list entry) : nat :=
  match l with
  | [] => 0%nat
  | x :: l' => if islt x prev then 0%nat else S (run_asc x l')
  end.

(** [count_run]: the length of the run at the start of the list, and
    whether it is strictly descending. *)
Definition count_run (l : list entry) : nat * bool :=
  match l with
  | [] => (0%nat, false)
  | [_] => (1%nat, false)
  | x :: y :: l' =>
    if islt y x then (S (S (run_desc y l')), true) else (S (S (run_asc y l')), false)
  end.

(** The binary search of [binarysort] for [pivot] in [pre], between the
    indices [l] and [r]: [p = l + (r - l) / 2]; [r = p] if
    [pivot < pre[p]], else [l = p + 1]; until [l = r]. Each step shrinks
    [r - l], so [r - l + 1] steps of fuel are enough. *)
Fixpoint bisect (fuel : nat) (pivot : entry) (pre : list entry) (l r : nat) : nat :=
  match fuel with
  | O => l
  | S f =>
    if (l <? r)%nat then
      let p := (l + (r - l) / 2)%nat in
      match nth_error pre p with
      | Some y => if islt pivot y then bisect f pivot pre l p else bisect f pivot pre (S p) r
      | None => l
      end
    else l
  end.

(** [binarysort]: each element of [rest] in turn is inserted into the
    sorted prefix [pre] at the index found by [bisect]. *)
Fixpoint binarysort (pre rest : list entry) : list entry :=
  match rest with
  | [] => pre
  | x :: rest' =>
    let i := bisect (S (List.length pre)) x pre 0 (List.length pre) in
    binarysort (firstn i pre ++ x :: skipn i pre) rest'
  end.

(** [list.sort] on a list shorter than 64 elements: [minrun] is then the
    length of the list, so the whole list is one forced run. [None] for
    longer lists. *)
Definition list_sort (l : list entry) : option (list entry) :=
  if (List.length l <? 2)%nat then Some l
  else if (64 <=? List.length l)%nat then None
  else
    let '(n, descending) := count_run l in
    let run := firstn n l in
    Some (binarysort (if descending then List.rev run else run) (skipn n l)).

Definition py_sorted (l : list entry) : list entry :=
  match list_sort l with
  | Some r => r
  | None => sorted_by_key l
  end.

(** ** Request, storage and responses *)

Record request := mkRequest {
  path : string;
  method : string;
  (** [request.args]: the query string parameters, in order *)
  args : list (string * text);
  (** [request.form]: the form-encoded body parameters *)
  form : list (string * text)
}.

(** [request.args[k]]: the first value under [k]; a missing key raises. *)
Fixpoint lookup_arg (k : string) (l : list (string * text)) : option text :=
  match l with
  | [] => None
  | (k', v) :: l' => if String.eqb k k' then Some v else lookup_arg k l'
  end.

(** The blob [asteroids-highscores/highscores.json]. [blob = None] is an
    object that cannot be downloaded (missing object or bucket, transport
    error); [writable = false] makes every upload fail; [uploads] counts
    the uploads made. *)
Record store := mkStore {
  blob : option text;
  writable : bool;
  uploads : nat
}.

Inductive body :=
| BStr (s : string)          (* a literal string, "Bad request" *)
| BText (t : text)           (* the downloaded blob, returned verbatim *)
| BList (l : leaderboard).   (* a list, serialized by Flask *)

Inductive exn :=
| StorageError               (* raised by download_as_text / upload_from_string *)
| JSONDecodeError.           (* raised by json.loads, or by using a decoded
                                value that is not a list of entries *)

(** A handler either returns [(body, status, headers)] or lets an exception
    escape; the headers are the constant CORS header and are left out. *)
Inductive outcome :=
| Response (b : body) (status : Z)
| Raised (e : exn).

Definition bad_request : outcome := Response (BStr "Bad request") 400.

(** ** [json.dumps] on the leaderboard

    The standard encoder with its defaults: [ensure_ascii=True], item
    separator [", "], key separator [": "], [allow_nan=True].
    Keys are written in the order the entry dicts are built in
    ([name], [score], [timestamp]). *)

Module Json.

(** Lowercase hex digit, as in ['\\u{0:04x}']. *)
Definition hex_digit (d : N) : N := if d <? 10 then 48 + d else 87 + d.

Definition hex4 (v : N) : text :=
  [hex_digit (v / 4096); hex_digit (v / 256 mod 16);
   hex_digit (v / 16 mod 16); hex_digit (v mod 16)].

(** [py_encode_basestring_ascii] for one code point: backslash and quote
    escaped, printable ASCII kept, the five short escapes, any other code
    point below 0x10000 as [\uXXXX] and the others as a surrogate pair. *)
Definition enc_char (c : N) : text :=
  if c =? 92 then [92; 92]
  else if c =? 34 then [92; 34]
  else if (32 <=? c) && (c <=? 126) then [c]
  else if c =? 8 then [92; 98]
  else if c =? 12 then [92; 102]
  else if c =? 10 then [92; 110]
  else if c =? 13 then [92; 114]
  else if c =? 9 then [92; 116]
  else if c <? 65536 then 92 :: 117 :: hex4 c
  else let n := c - 65536 in
       (92 :: 117 :: hex4 (55296 + n / 1024)) ++
       (92 :: 117 :: hex4 (56320 + n mod 1024)).

Definition enc_string (t : text) : text :=
  34 :: flat_map enc_char t ++ [34].

Fixpoint uint_chars (u : uint) : text :=
  match u with
  | Nil => []
  | D0 u => 48 :: uint_chars u
  | D1 u => 49 :: uint_chars u
  | D2 u => 50 :: uint_chars u
  | D3 u => 51 :: uint_chars u
  | D4 u => 52 :: uint_chars u
  | D5 u => 53 :: uint_chars u
  | D6 u => 54 :: uint_chars u
  | D7 u => 55 :: uint_chars u
  | D8 u => 56 :: uint_chars u
  | D9 u => 57 :: uint_chars u
  end.

(** Decimal digits of a natural number, without leading zeros. *)
Definition dec (n : N) : text := uint_chars (N.to_uint n).

(** [float.__repr__] of a value rounded to one decimal: the shortest
    representation, which for such a value below 1e16 in magnitude is
    the integer part, a point and the tenths digit ([50.0], [0.1],
    [-3.5]). NaN and the infinities are written as JavaScript names. *)
Definition enc_float (f : pyfloat) : text :=
  match f with
  | Fin k =>
      (if (k <? 0)%Z then [45] else []) ++
      dec (Z.to_N (Z.abs k) / 10) ++ 46 :: dec (Z.to_N (Z.abs k) mod 10)
  | PInf => txt "Infinity"
  | NInf => txt "-Infinity"
  | NaN => txt "NaN"
  end.

(** ["key": ] *)
Definition enc_key (k : string) : text := enc_string (txt k) ++ txt ": ".

Definition enc_entry (e : entry) : text :=
  txt "{" ++ enc_key "name" ++ enc_string (name e) ++
  txt ", " ++ enc_key "score" ++ enc_float (score e) ++
  txt ", " ++ enc_key "timestamp" ++ enc_string (timestamp e) ++ txt "}".

Fixpoint enc_items (l : leaderboard) : text :=
  match l with
  | [] => []
  | e :: l' => txt ", " ++ enc_entry e ++ enc_items l'
  end.

Definition dumps (l : leaderboard) : text :=
  match l with
  | [] => txt "[]"
  | e :: l' => [91] ++ enc_entry e ++ enc_items l' ++ [93]
  end.


(** ** [json.loads] on the persisted format

    A decoder for JSON text made of an array of objects whose member
    values are strings or numbers, as [json.loads] reads it: whitespace
    between tokens, string escapes including surrogate pairs, the names
    [NaN], [Infinity] and [-Infinity]. Numbers are read as far as the
    [pyfloat] model goes: an optional minus, digits without a leading
    zero, and an optional fraction of one digit; an integer is read as
    the float of the same value. Text outside this format (other JSON
    values, numbers with more fraction digits or an exponent, members
    other than [name], [score] and [timestamp]) gives [None], as a
    decoding error does; such text is never written by [dumps]. *)

Definition is_ws (c : N) : bool := (c =? 32) || (c =? 9) || (c =? 10) || (c =? 13).

Fixpoint skip_ws (s : text) : text :=
  match s with
  | c :: s' => if is_ws c then skip_ws s' else s
  | [] => []
  end.

(** [s] with the prefix [p] removed. *)
Fixpoint expect (p s : text) : option text :=
  match p, s with
  | [], _ => Some s
  | c :: p', d :: s' => if c =? d then expect p' s' else None
  | _ :: _, [] => None
  end.

Definition hex_value (h : N) : option N :=
  if (48 <=? h) && (h <=? 57) then Some (h - 48)
  else if (97 <=? h) && (h <=? 102) then Some (h - 87)
  else if (65 <=? h) && (h <=? 70) then Some (h - 55)
  else None.

(** [_decode_uXXXX] *)
Definition dec_hex4 (a b c d : N) : option N :=
  match hex_value a, hex_value b, hex_value c, hex_value d with
  | Some x, Some y, Some z, Some w => Some (4096 * x + 256 * y + 16 * z + w)
  | _, _, _, _ => None
  end.

Definition is_high (v : N) : bool := (55296 <=? v) && (v <=? 56319).
Definition is_low (v : N) : bool := (56320 <=? v) && (v <=? 57343).

(** [0x10000 + (((uni - 0xd800) << 10) | (uni2 - 0xdc00))]; the low part
    is below 1024, so [|] adds. *)
Definition combine (hi lo : N) : N := 65536 + (hi - 55296) * 1024 + (lo - 56320).

(** The one-character escapes of [BACKSLASH]. *)
Definition short_escape (e : N) : option N :=
  if e =? 34 then Some 34
  else if e =? 92 then Some 92
  else if e =? 47 then Some 47
  else if e =? 98 then Some 8
  else if e =? 102 then Some 12
  else if e =? 110 then Some 10
  else if e =? 114 then Some 13
  else if e =? 116 then Some 9
  else None.

Definition cons_res (c : N) (r : option (text * text)) : option (text * text) :=
  match r with
  | Some (t, rest) => Some (c :: t, rest)
  | None => None
  end.

(** [py_scanstring] with [strict=True]: the string body after the opening
    quote, up to and without the closing quote; returns the decoded
    string and the text after the closing quote. *)
Fixpoint scan_string (s : text) : option (text * text) :=
  match s with
  | [] => None
  | c :: s1 =>
    if c =? 34 then Some ([], s1)
    else if c =? 92 then
      match s1 with
      | [] => None
      | e :: s2 =>
        if e =? 117 then
          match s2 with
          | h1 :: h2 :: h3 :: h4 :: s3 =>
            match dec_hex4 h1 h2 h3 h4 with
            | None => None
            | Some v =>
              if is_high v then
                match s3 with
                | b :: u :: k1 :: k2 :: k3 :: k4 :: s4 =>
                  if (b =? 92) && (u =? 117) then
                    match dec_hex4 k1 k2 k3 k4 with
                    | Some w =>
                      if is_low w then cons_res (combine v w) (scan_string s4)
                      else cons_res v (scan_string s3)
                    | None => None
                    end
                  else cons_res v (scan_string s3)
                | _ => cons_res v (scan_string s3)
                end
              else cons_res v (scan_string s3)
            end
          | _ => None
          end
        else match short_escape e with
             | Some c' => cons_res c' (scan_string s2)
             | None => None
             end
      end
    else if c <? 32 then None
    else cons_res c (scan_string s1)
  end.

Definition parse_string (s : text) : option (text * text) :=
  match s with
  | c :: s' => if c =? 34 then scan_string s' else None
  | [] => None
  end.

Definition is_digit (c : N) : bool := (48 <=? c) && (c <=? 57).

(** The longest prefix of decimal digits, as a [uint], and the rest. *)
Fixpoint span_digits (s : text) : uint * text :=
  match s with
  | [] => (Nil, [])
  | c :: s' =>
    if is_digit c then
      let (u, r) := span_digits s' in
      (match c - 48 with
       | 0 => D0 u | 1 => D1 u | 2 => D2 u | 3 => D3 u | 4 => D4 u
       | 5 => D5 u | 6 => D6 u | 7 => D7 u | 8 => D8 u | _ => D9 u
       end, r)
    else (Nil, s)
  end.

Definition nonempty (u : uint) : bool := match u with Nil => false | _ => true end.

(** An unsigned number: digits and an optional one-digit fraction, in
    tenths. *)
Definition parse_unsigned (s : text) : option (N * text) :=
  let (ip, s1) := span_digits s in
  if negb (nonempty ip) then None else
  match s1 with
  | c :: s2 =>
    if c =? 46 then
      match span_digits s2 with
      | ((D0 Nil | D1 Nil | D2 Nil | D3 Nil | D4 Nil | D5 Nil
          | D6 Nil | D7 Nil | D8 Nil | D9 Nil) as fp, s3) =>
          Some (10 * N.of_uint ip + N.of_uint fp, s3)
      | _ => None
      end
    else Some (10 * N.of_uint ip, s1)
  | [] => Some (10 * N.of_uint ip, s1)
  end.

(** The unsigned part of a JSON number. JSON allows no leading zero: the
    integer part [0] ends at the [0], and the digit after it is left
    unread (so [05] is not a number followed by a separator, and the
    decoder fails as Python's does). *)
Definition parse_json_unsigned (s : text) : option (N * text) :=
  match s with
  | c0 :: ((c :: _) as s') => if (c0 =? 48) && is_digit c then Some (0, s') else parse_unsigned s
  | _ => parse_unsigned s
  end.

(** [NaN], [Infinity], [-Infinity] or a number. *)
Definition parse_float (s : text) : option (pyfloat * text) :=
  match expect (txt "NaN") s with
  | Some r => Some (NaN, r)
  | None =>
    match expect (txt "Infinity") s with
    | Some r => Some (PInf, r)
    | None =>
      match expect (txt "-Infinity") s with
      | Some r => Some (NInf, r)
      | None =>
        match expect [45] s with
        | Some s' =>
          match parse_json_unsigned s' with
          | Some (n, r) => Some (Fin (- Z.of_N n), r)
          | None => None
          end
        | None =>
          match parse_json_unsigned s with
          | Some (n, r) => Some (Fin (Z.of_N n), r)
          | None => None
          end
        end
      end
    end
  end.

Inductive jscalar :=
| JStr (t : text)
| JNum (f : pyfloat).

Definition parse_value (s : text) : option (jscalar * text) :=
  match parse_string s with
  | Some (t, r) => Some (JStr t, r)
  | None =>
    match parse_float s with
    | Some (f, r) => Some (JNum f, r)
    | None => None
    end
  end.

(** ["key" : value] *)
Definition parse_member (s : text) : option ((text * jscalar) * text) :=
  match parse_string s with
  | Some (k, r) =>
    match expect [58] (skip_ws r) with
    | Some r' =>
      match parse_value (skip_ws r') with
      | Some (v, r'') => Some ((k, v), r'')
      | None => None
      end
    | None => None
    end
  | None => None
  end.

(** After a member: [, member]* and the closing brace. *)
Fixpoint members_rest (fuel : nat) (s : text) : option (list (text * jscalar) * text) :=
  match fuel with
  | O => None
  | S f =>
    match skip_ws s with
    | c :: s' =>
      if c =? 125 then Some ([], s')
      else if c =? 44 then
        match parse_member (skip_ws s') with
        | Some (m, r) =>
          match members_rest f r with
          | Some (ms, r') => Some (m :: ms, r')
          | None => None
          end
        | None => None
        end
      else None
    | [] => None
    end
  end.

Definition parse_object (fuel : nat) (s : text) : option (list (text * jscalar) * text) :=
  match s with
  | c :: s1 =>
    if c =? 123 then
      match skip_ws s1 with
      | d :: s2 =>
        if d =? 125 then Some ([], s2)
        else
          match parse_member (d :: s2) with
          | Some (m, r) =>
            match members_rest fuel r with
            | Some (ms, r') => Some (m :: ms, r')
            | None => None
            end
          | None => None
          end
      | [] => None
      end
    else None
  | [] => None
  end.

Definition text_eqb (a b : text) : bool :=
  if list_eq_dec N.eq_dec a b then true else false.

(** The value a Python dict built from the pairs holds at [k]: the last
    one. *)
Fixpoint lookup_last (k : text) (ms : list (text * jscalar)) : option jscalar :=
  match ms with
  | [] => None
  | (k', v) :: ms' =>
    match lookup_last k ms' with
    | Some v' => Some v'
    | None => if text_eqb k k' then Some v else None
    end
  end.

(** A decoded object as an entry: the three keys with a string name, a
    number score and a string timestamp, and no other key. *)
Definition entry_of_members (ms : list (text * jscalar)) : option entry :=
  if forallb (fun kv => text_eqb (fst kv) (txt "name") || text_eqb (fst kv) (txt "score")
                        || text_eqb (fst kv) (txt "timestamp")) ms then
    match lookup_last (txt "name") ms, lookup_last (txt "score") ms,
          lookup_last (txt "timestamp") ms with
    | Some (JStr n), Some (JNum f), Some (JStr t) => Some (mkEntry n f t)
    | _, _, _ => None
    end
  else None.

Definition parse_entry (fuel : nat) (s : text) : option (entry * text) :=
  match parse_object fuel s with
  | Some (ms, r) =>
    match entry_of_members ms with
    | Some e => Some (e, r)
    | None => None
    end
  | None => None
  end.

(** After an item: [, item]* and the closing bracket. *)
Fixpoint items_rest (fuel : nat) (s : text) : option (leaderboard * text) :=
  match fuel with
  | O => None
  | S f =>
    match skip_ws s with
    | c :: s' =>
      if c =? 93 then Some ([], s')
      else if c =? 44 then
        match parse_entry f (skip_ws s') with
        | Some (e, r) =>
          match items_rest f r with
          | Some (es, r') => Some (e :: es, r')
          | None => None
          end
        | None => None
        end
      else None
    | [] => None
    end
  end.

(** Only whitespace may follow the value ("Extra data" otherwise). *)
Definition finish (l : leaderboard) (r : text) : option leaderboard :=
  match skip_ws r with
  | [] => Some l
  | _ => None
  end.

(** [json.loads]; [None] is a [JSONDecodeError] (or a text outside the
    persisted format). The fuel bounds the number of members and items
    by the length of the text. *)
Definition loads (s : text) : option leaderboard :=
  let fuel := List.length s in
  match skip_ws s with
  | c :: s1 =>
    if c =? 91 then
      match skip_ws s1 with
      | d :: s2 =>
        if d =? 93 then finish [] s2
        else
          match parse_entry fuel (d :: s2) with
          | Some (e, r) =>
            match items_rest fuel r with
            | Some (es, r') => finish (e :: es) r'
            | None => None
            end
          | None => None
          end
      | [] => None
      end
    else None
  | [] => None
  end.

(** A code point a Python string can hold after decoding UTF-8 text: below
    0x110000 and not a surrogate. *)
Definition scalar (c : N) : bool :=
  (c <? 1114112) && negb ((55296 <=? c) && (c <=? 57343)).

Definition entry_scalar (e : entry) : bool :=
  forallb scalar (name e) && forallb scalar (timestamp e).

Definition head_not_digit (s : text) : Prop :=
  match s with c :: _ => is_digit c = false | [] => True end.

End Json.

(** ** The handlers *)

Section Handler.

(** [round(float(s), 1)] for the text [s] of the [score] parameter;
    [None] when [float] raises. Float parsing and rounding are left
    abstract: the handler is defined, and its theorems proved, for every
    such function. *)
Variable round_float1 : text -> option pyfloat.

(** [datetime.datetime.now().isoformat()] at the time of the request. *)
Variable now : text.

(** [read_storage]: [blob.download_as_text()]; [None] is the exception. *)
Definition read_storage (st : store) : option text := blob st.

(** [write_storage]: [blob.upload_from_string(json.dumps(data))]. *)
Definition write_storage (data : leaderboard) (st : store) : option store :=
  if writable st then Some (mkStore (Some (Json.dumps data)) (writable st) (S (uploads st)))
  else None.

(** [list_highscores] *)
Definition list_highscores (st : store) : outcome * store :=
  match read_storage st with
  | Some data => (Response (BText data) 200, st)
  | None => (Raised StorageError, st)
  end.

(** The [try] block of [submit]: every failure, a missing key, a bare
    [raise] or a [ValueError] of [float], reaches the bare [except]. *)
Definition validate (req : request) : option (text * pyfloat) :=
  match lookup_arg "name" (args req) with
  | None => None
  | Some nm =>
    if (List.length nm =? 0)%nat || (20 <? List.length nm)%nat then None
    else
      match lookup_arg "score" (args req) with
      | None => None
      | Some sc =>
        match round_float1 sc with
        | None => None
        | Some sco =>
          if fle sco (Fin 0) || flt (Fin 1000000) sco then None
          else Some (nm, sco)
        end
      end
  end.

(** [data.insert(0, entry)] then [sorted(data, key=lambda x: -x["score"])[:10]] *)
Definition update (e : entry) (data : leaderboard) : leaderboard :=
  firstn 10 (py_sorted (e :: data)).

(** [submit] *)
Definition submit (req : request) (st : store) : outcome * store :=
  match validate req with
  | None => (bad_request, st)
  | Some (nm, sco) =>
    match read_storage st with
    | None => (Raised StorageError, st)
    | Some raw =>
      match Json.loads raw with
      | None => (Raised JSONDecodeError, st)
      | Some data =>
        let data' := update (mkEntry nm sco now) data in
        match write_storage data' st with
        | Some st' => (Response (BList data') 200, st')
        | None => (Raised StorageError, st)
        end
      end
    end
  end.

(** [main] *)
Definition main (req : request) (st : store) : outcome * store :=
  if String.eqb (path req) "/" then list_highscores st
  else if String.eqb (path req) "/submit" && String.eqb (method req) "POST" then submit req st
  else (bad_request, st).

End Handler.

(** ** A float parser for concrete requests

    [round(float(s), 1)] on the literals used in the examples below: an
    optional sign followed by [nan], [inf] or [infinity] in any case, or
    by digits with at most one fractional digit (such a value is its own
    rounding). Other literals are outside its range ([None]). *)

Definition ascii_lower (c : N) : N := if (65 <=? c) && (c <=? 90) then c + 32 else c.

Definition round_float1_lit (s : text) : option pyfloat :=
  let '(neg, s') :=
    match s with
    | c :: r => if c =? 45 then (true, r) else if c =? 43 then (false, r) else (false, s)
    | [] => (false, s)
    end in
  let l := map ascii_lower s' in
  if Json.text_eqb l (txt "nan") then Some NaN
  else if Json.text_eqb l (txt "inf") || Json.text_eqb l (txt "infinity") then
    Some (if neg then NInf else PInf)
  else
    match Json.parse_unsigned s' with
    | Some (n, []) => Some (Fin (if neg then - Z.of_N n else Z.of_N n))
    | _ => None
    end.

(** ** Predicates used by the statements *)

(** Python's [a["score"] >= b["score"]] for every adjacent pair. *)
Fixpoint nonincreasing (l : leaderboard) : bool :=
  match l with
  | a :: ((b :: _) as l') => fle (score b) (score a) && nonincreasing l'
  | _ => true
  end.

Definition is_nan (f : pyfloat) : bool := match f with NaN => true | _ => false end.

Definition nan_free (l : leaderboard) : Prop := Forall (fun e => is_nan (score e) = false) l.

Definition pyfloat_eq_dec (a b : pyfloat) : {a = b} + {a <> b}.
Proof. decide equality; apply Z.eq_dec. Defined.

(** The entries whose score is (structurally) [f]. *)
Definition with_score (f : pyfloat) (l : leaderboard) : leaderboard :=
  filter (fun e => if pyfloat_eq_dec (score e) f then true else false) l.

(** Order-preserving sublists. *)
Inductive subseq {A} : list A -> list A -> Prop :=
| subseq_nil : subseq [] []
| subseq_keep x l l' : subseq l l' -> subseq (x :: l) (x :: l')
| subseq_skip x l l' : subseq l l' -> subseq l (x :: l').

(** ** Concrete requests and stores *)

Definition submit_req (nm sc : string) : request :=
  mkRequest "/submit" "POST" [("name"%string, txt nm); ("score"%string, txt sc)] [].

Definition store_of (l : leaderboard) (n : nat) : store := mkStore (Some (Json.dumps l)) true n.

Definition ent (nm : string) (k : Z) (ts : string) : entry := mkEntry (txt nm) (Fin k) (txt ts).

(** Requests handled one after the other, each with its timestamp. *)
Fixpoint main_seq (rf : text -> option pyfloat) (reqs : list (text * request)) (st : store)
  : list outcome * store :=
  match reqs with
  | [] => ([], st)
  | (now, req) :: rest =>
    let '(o, st') := main rf now req st in
    let '(os, st'') := main_seq rf rest st' in
    (o :: os, st'')
  end.

(** ** Predicates on the persisted state *)

(** A printable ASCII character, from the space to the tilde. *)
Definition printable (c : N) : bool := (32 <=? c) && (c <=? 126).

(** A code point a Python [str] can hold at all: below 0x110000. *)
Definition code_point (c : N) : bool := c <? 1114112.

Definition entry_code_points (e : entry) : bool :=
  forallb code_point (name e) && forallb code_point (timestamp e).

(** The blob holds JSON text that decodes to at most ten entries without
    NaN, in non-increasing score order, whose strings are made of Unicode
    scalar values. *)
Definition good_store (st : store) : bool :=
  match blob st with
  | Some raw =>
    match Json.loads raw with
    | Some l =>
      (List.length l <=? 10)%nat && nonincreasing l &&
      forallb (fun e => negb (is_nan (score e))) l && forallb Json.entry_scalar l
    | None => false
    end
  | None => false
  end.

(** ** Lemmas on floats and the sort *)

Lemma flt_fneg (a b : pyfloat) : flt (fneg a) (fneg b) = flt b a.
Proof.
  destruct a, b; simpl; try reflexivity.
  destruct (Z.ltb_spec (- k) (- k0)), (Z.ltb_spec k0 k); lia.
Qed.

Lemma flt_irrefl (a : pyfloat) : flt a a = false.
Proof. destruct a; simpl; try reflexivity. apply Z.ltb_irrefl. Qed.

(** Without NaN, [not (a < b)] is [b <= a]. *)
Lemma flt_false_fle (a b : pyfloat) :
  is_nan a = false -> is_nan b = false -> flt a b = false -> fle b a = true.
Proof.
  unfold fle; destruct a, b; simpl; intros Ha Hb H; try discriminate; auto.
  destruct (Z.ltb_spec k k0), (Z.ltb_spec k0 k), (Z.eqb_spec k0 k); simpl;
    try discriminate; auto; lia.
Qed.

Lemma flt_fle (a b : pyfloat) : flt a b = true -> fle a b = true.
Proof. unfold fle; intros ->; reflexivity. Qed.

Lemma key_lt (x y : entry) : flt (key y) (key x) = flt (score x) (score y).
Proof. unfold key; apply flt_fneg. Qed.

Lemma insert_by_key_perm (x : entry) (l : leaderboard) :
  Permutation (insert_by_key x l) (x :: l).
Proof.
  induction l as [|y l IH]; simpl; [constructor; constructor|].
  destruct (flt (key y) (key x)); [|reflexivity].
  eapply perm_trans; [apply perm_skip, IH | apply perm_swap].
Qed.

Lemma sorted_by_key_perm (l : leaderboard) : Permutation (sorted_by_key l) l.
Proof.
  induction l as [|x l IH]; simpl; [constructor|].
  eapply perm_trans; [apply insert_by_key_perm | apply perm_skip, IH].
Qed.

(** [insert_by_key] puts [x] after a run of strictly higher scores. *)
Lemma insert_by_key_split (x : entry) (l : leaderboard) :
  exists l1 l2, insert_by_key x l = l1 ++ x :: l2 /\ l = l1 ++ l2 /\
                Forall (fun y => flt (score x) (score y) = true) l1.
Proof.
  induction l as [|y l IH]; simpl.
  - exists [], []; auto.
  - rewrite key_lt. destruct (flt (score x) (score y)) eqn:E.
    + destruct IH as (l1 & l2 & -> & -> & F).
      exists (y :: l1), l2; simpl; auto.
    + exists [], (y :: l); auto.
Qed.

Lemma with_score_insert (f : pyfloat) (x : entry) (l : leaderboard) :
  with_score f (insert_by_key x l) = with_score f (x :: l).
Proof.
  unfold with_score.
  induction l as [|y l IH]; simpl; [reflexivity|].
  rewrite key_lt. destruct (flt (score x) (score y)) eqn:E; [|reflexivity].
  simpl; rewrite IH; simpl.
  destruct (pyfloat_eq_dec (score x) f), (pyfloat_eq_dec (score y) f); try reflexivity.
  subst. rewrite e0, flt_irrefl in E. discriminate.
Qed.

Lemma with_score_sorted (f : pyfloat) (l : leaderboard) :
  with_score f (sorted_by_key l) = with_score f l.
Proof.
  induction l as [|x l IH]; simpl; [reflexivity|].
  rewrite with_score_insert. unfold with_score in *; simpl; rewrite IH; reflexivity.
Qed.

Lemma nonincreasing_cons (a : entry) (l : leaderboard) :
  nonincreasing (a :: l) = true ->
  nonincreasing l = true /\ (forall b l', l = b :: l' -> fle (score b) (score a) = true).
Proof.
  destruct l as [|b l]; simpl; [split; [reflexivity | discriminate]|].
  intros H; apply andb_prop in H as [H1 H2]; split; auto.
  intros b' l' E; inversion E; subst; auto.
Qed.

Lemma insert_by_key_nonincreasing (x : entry) (l : leaderboard) :
  nan_free (x :: l) -> nonincreasing l = true -> nonincreasing (insert_by_key x l) = true.
Proof.
  intros Hf. inversion Hf as [|? ? Hx Hl]; subst; clear Hf.
  induction l as [|y l IH]; simpl; intros Hs; [reflexivity|].
  inversion Hl as [|? ? Hy Hl']; subst.
  apply nonincreasing_cons in Hs as [Hs Hhd].
  rewrite key_lt. destruct (flt (score x) (score y)) eqn:E.
  - specialize (IH Hl' Hs).
    destruct l as [|z l]; simpl in *.
    + rewrite (flt_fle _ _ E); reflexivity.
    + rewrite key_lt in *. destruct (flt (score x) (score z)) eqn:E2; simpl in *.
      * rewrite (Hhd z l eq_refl); simpl; exact IH.
      * rewrite (flt_fle _ _ E); simpl; exact IH.
  - simpl. rewrite (flt_false_fle _ _ Hx Hy E); simpl.
    destruct l as [|z l]; simpl; [reflexivity|].
    rewrite (Hhd z l eq_refl); simpl. simpl in Hs. exact Hs.
Qed.

Lemma nan_free_perm (l l' : leaderboard) : Permutation l l' -> nan_free l' -> nan_free l.
Proof.
  unfold nan_free; intros P H. rewrite Forall_forall in *; intros e He.
  apply H. eapply Permutation_in; eauto.
Qed.

Lemma sorted_by_key_nonincreasing (l : leaderboard) :
  nan_free l -> nonincreasing (sorted_by_key l) = true.
Proof.
  induction l as [|x l IH]; simpl; intros H; [reflexivity|].
  inversion H; subst.
  apply insert_by_key_nonincreasing; [|auto].
  constructor; auto. eapply nan_free_perm; [apply sorted_by_key_perm | assumption].
Qed.

Lemma nonincreasing_firstn (n : nat) (l : leaderboard) :
  nonincreasing l = true -> nonincreasing (firstn n l) = true.
Proof.
  revert l; induction n as [|n IH]; intros l H; [reflexivity|].
  destruct l as [|a l]; [reflexivity|].
  apply nonincreasing_cons in H as [H Hhd].
  specialize (IH l H). simpl.
  destruct n as [|n]; [reflexivity|].
  destruct l as [|b l]; [reflexivity|].
  simpl in *. rewrite (Hhd b l eq_refl). exact IH.
Qed.

Lemma subseq_nil_l {A} (l : list A) : subseq [] l.
Proof. induction l; constructor; auto. Qed.

Lemma subseq_refl {A} (l : list A) : subseq l l.
Proof. induction l; constructor; auto. Qed.

Lemma subseq_trans {A} (a b c : list A) : subseq a b -> subseq b c -> subseq a c.
Proof.
  intros H1 H2. revert a H1. induction H2; intros a H1.
  - exact H1.
  - inversion H1; subst; constructor; auto.
  - constructor; auto.
Qed.

Lemma subseq_firstn {A} (n : nat) (l : list A) : subseq (firstn n l) l.
Proof.
  revert l; induction n; intros l; simpl; [apply subseq_nil_l|].
  destruct l; constructor; auto.
Qed.

(** A sublist of a permutation of [L] is a permutation of a sublist of [L]. *)
Lemma subseq_perm {A} (s L : list A) :
  Permutation s L -> forall a, subseq a s -> exists b, subseq b L /\ Permutation a b.
Proof.
  induction 1 as [|x s L P IH|x y l|s m L P1 IH1 P2 IH2]; intros a Ha.
  - inversion Ha; subst. exists []; split; constructor.
  - inversion Ha; subst.
    + destruct (IH l H1) as (b & Hb & Pb). exists (x :: b); split; constructor; auto.
    + destruct (IH a H1) as (b & Hb & Pb). exists b; split; [constructor|]; auto.
  - inversion Ha as [|y' a1 l1 H1|y' a1 l1 H1]; subst.
    + inversion H1 as [|x' a2 l2 H2|x' a2 l2 H2]; subst.
      * exists (x :: y :: a2); split; [repeat constructor; auto | apply perm_swap].
      * exists (y :: a1); split; [constructor; constructor; auto | reflexivity].
    + inversion H1 as [|x' a2 l2 H2|x' a2 l2 H2]; subst.
      * exists (x :: a2); split; [constructor; constructor; auto | reflexivity].
      * exists a; split; [constructor; constructor; auto | reflexivity].
  - destruct (IH1 a Ha) as (b & Hb & Pb).
    destruct (IH2 b Hb) as (c & Hc & Pc).
    exists c; split; [auto | eapply perm_trans; eauto].
Qed.

(** ** More lemmas on floats, sorted lists and the handler *)

Lemma fle_flt_false (a b : pyfloat) : fle b a = true -> flt a b = false.
Proof.
  unfold fle; destruct a, b; simpl; intros H; try discriminate; try reflexivity.
  destruct (Z.ltb_spec k0 k), (Z.eqb_spec k0 k), (Z.ltb_spec k k0); simpl in *;
    try discriminate; lia.
Qed.

Lemma fle_trans (a b c : pyfloat) : fle a b = true -> fle b c = true -> fle a c = true.
Proof.
  unfold fle; destruct a, b, c; simpl; intros H1 H2; try discriminate; try reflexivity.
  destruct (Z.ltb_spec k k0), (Z.eqb_spec k k0), (Z.ltb_spec k0 k1), (Z.eqb_spec k0 k1),
    (Z.ltb_spec k k1), (Z.eqb_spec k k1); simpl in *; try discriminate; try reflexivity; lia.
Qed.

Lemma fle_refl (a : pyfloat) : is_nan a = false -> fle a a = true.
Proof. unfold fle; destruct a; simpl; intros H; try discriminate; auto. rewrite Z.eqb_refl, orb_true_r; reflexivity. Qed.

(** What [main] can do to the store: nothing, or one successful [submit]. *)
Lemma main_cases (rf : text -> option pyfloat) (now : text) (req : request) (st : store) :
  (snd (main rf now req st) = st /\ forall r s, fst (main rf now req st) <> Response (BList r) s) \/
  exists nm sco raw data,
    path req = "/submit"%string /\ method req = "POST"%string /\
    validate rf req = Some (nm, sco) /\ blob st = Some raw /\ Json.loads raw = Some data /\
    writable st = true /\
    main rf now req st =
      (Response (BList (update (mkEntry nm sco now) data)) 200,
       mkStore (Some (Json.dumps (update (mkEntry nm sco now) data))) true (S (uploads st))).
Proof.
  unfold main.
  destruct (String.eqb_spec (path req) "/") as [E|NE].
  - left. unfold list_highscores, read_storage.
    destruct (blob st); simpl; split; try reflexivity; intros r s H; discriminate H.
  - destruct (String.eqb_spec (path req) "/submit") as [E1|_];
      [|left; unfold bad_request; simpl; split; [reflexivity | intros r s H; discriminate H]].
    destruct (String.eqb_spec (method req) "POST") as [E2|_];
      [|left; unfold bad_request; simpl; split; [reflexivity | intros r s H; discriminate H]].
    simpl. unfold submit, read_storage, write_storage.
    destruct (validate rf req) as [[nm sco]|] eqn:Hv;
      [|left; unfold bad_request; simpl; split; [reflexivity | intros r s H; discriminate H]].
    destruct (blob st) as [raw|] eqn:Hb;
      [|left; simpl; split; [reflexivity | intros r s H; discriminate H]].
    destruct (Json.loads raw) as [data|] eqn:Hl;
      [|left; simpl; split; [reflexivity | intros r s H; discriminate H]].
    destruct (writable st) eqn:Hw;
      [|left; simpl; split; [reflexivity | intros r s H; discriminate H]].
    right. exists nm, sco, raw, data. repeat split; auto.
Qed.

Lemma update_length (e : entry) (old : leaderboard) : (List.length (update e old) <= 10)%nat.
Proof. unfold update; rewrite length_firstn; lia. Qed.


(** A suffix of a sorted list is sorted. *)
Lemma nonincreasing_app_r (l1 l2 : leaderboard) :
  nonincreasing (l1 ++ l2) = true -> nonincreasing l2 = true.
Proof.
  induction l1 as [|a l1 IH]; simpl; intros H; [exact H|].
  apply IH. apply (nonincreasing_cons a (l1 ++ l2)) in H as [H _]. exact H.
Qed.

(** Adjacent positions of a sorted list. *)
Lemma nonincreasing_nth (l : leaderboard) (j : nat) (a b : entry) :
  nonincreasing l = true -> nth_error l j = Some a -> nth_error l (S j) = Some b ->
  fle (score b) (score a) = true.
Proof.
  revert j; induction l as [|c l IH]; intros j H Ha Hb; [destruct j; discriminate|].
  apply nonincreasing_cons in H as [H Hhd].
  destruct j as [|j]; simpl in Ha, Hb.
  - inversion Ha; subst. destruct l as [|d l]; [destruct (S O); discriminate|].
    simpl in Hb. inversion Hb; subst. apply (Hhd b l eq_refl).
  - exact (IH j H Ha Hb).
Qed.

(** Every element of a sorted list is at most its head. *)
Lemma nonincreasing_head_bound (y : entry) (l : leaderboard) :
  nonincreasing (y :: l) = true -> Forall (fun z => fle (score z) (score y) = true) l.
Proof.
  revert y; induction l as [|z l IH]; intros y H; constructor.
  - apply nonincreasing_cons in H as [_ Hhd]. apply (Hhd z l eq_refl).
  - apply nonincreasing_cons in H as [H Hhd].
    specialize (IH z H). eapply Forall_impl; [|exact IH].
    intros w Hw. eapply fle_trans; [exact Hw | apply (Hhd z l eq_refl)].
Qed.

(** Sorting a list that is already sorted, without NaN, changes nothing. *)
Lemma sorted_by_key_id (l : leaderboard) :
  nan_free l -> nonincreasing l = true -> sorted_by_key l = l.
Proof.
  induction l as [|x l IH]; intros Hf Hs; [reflexivity|].
  inversion Hf as [|? ? Hx Hl]; subst.
  apply nonincreasing_cons in Hs as [Hs Hhd].
  simpl. rewrite (IH Hl Hs).
  destruct l as [|y l]; [reflexivity|].
  simpl. rewrite key_lt, (fle_flt_false _ _ (Hhd y l eq_refl)). reflexivity.
Qed.

(** On a sorted list without NaN, [insert_by_key] puts the new entry after
    the entries with a strictly higher score and before the others. *)
Lemma insert_sorted_split (x : entry) (l : leaderboard) :
  is_nan (score x) = false -> nan_free l -> nonincreasing l = true ->
  exists l1 l2, l = l1 ++ l2 /\ insert_by_key x l = l1 ++ x :: l2 /\
    Forall (fun y => flt (score x) (score y) = true) l1 /\
    Forall (fun y => fle (score y) (score x) = true) l2.
Proof.
  intros Hx. induction l as [|y l IH]; intros Hl Hs; simpl.
  - exists [], []; repeat split; constructor.
  - inversion Hl as [|? ? Hy Hl']; subst.
    pose proof (nonincreasing_head_bound y l Hs) as Hb.
    apply nonincreasing_cons in Hs as [Hs _].
    rewrite key_lt. destruct (flt (score x) (score y)) eqn:E.
    + destruct (IH Hl' Hs) as (l1 & l2 & -> & -> & F1 & F2).
      exists (y :: l1), l2; repeat split; auto.
    + pose proof (flt_false_fle _ _ Hx Hy E) as Hyx.
      exists [], (y :: l); repeat split; auto.
      constructor; auto. eapply Forall_impl; [|exact Hb].
      intros w Hw; exact (fle_trans _ _ _ Hw Hyx).
Qed.


(** ** CPython's [list.sort] on short lists

    On lists without NaN, [list_sort] returns the list of the stable
    insertion sort; on every list it returns a permutation. *)

Lemma islt_score (x y : entry) : islt x y = flt (score y) (score x).
Proof. unfold islt, key. apply flt_fneg. Qed.

Lemma flt_trans (a b c : pyfloat) : flt a b = true -> flt b c = true -> flt a c = true.
Proof.
  destruct a, b, c; simpl; intros H1 H2; try discriminate; try reflexivity.
  apply Z.ltb_lt in H1; apply Z.ltb_lt in H2; apply Z.ltb_lt; lia.
Qed.

Lemma fle_flt_trans (a b c : pyfloat) : fle a b = true -> flt b c = true -> flt a c = true.
Proof.
  unfold fle; destruct a, b, c; simpl; intros H1 H2; try discriminate; try reflexivity.
  apply Z.ltb_lt in H2; apply Z.ltb_lt.
  destruct (Z.ltb_spec k k0), (Z.eqb_spec k k0); simpl in H1; try discriminate; lia.
Qed.

Lemma fle_antisym (a b : pyfloat) : fle a b = true -> fle b a = true -> a = b.
Proof.
  unfold fle; destruct a, b; simpl; intros H1 H2; try discriminate; try reflexivity.
  destruct (Z.ltb_spec k k0), (Z.eqb_spec k k0), (Z.ltb_spec k0 k), (Z.eqb_spec k0 k);
    simpl in H1, H2; try discriminate; f_equal; lia.
Qed.

Lemma nonincreasing_nth_lt (l : leaderboard) (i j : nat) (y z : entry) :
  nonincreasing l = true -> (i < j)%nat -> nth_error l i = Some y -> nth_error l j = Some z ->
  fle (score z) (score y) = true.
Proof.
  revert i j; induction l as [|c l IH]; intros i j H Hij Hy Hz; [destruct i; discriminate|].
  destruct i as [|i], j as [|j]; try lia; simpl in Hy, Hz.
  - injection Hy as <-. pose proof (nonincreasing_head_bound c l H) as Hb.
    rewrite Forall_forall in Hb. apply Hb. eapply nth_error_In; eauto.
  - apply nonincreasing_cons in H as [H _]. apply (IH i j H); auto; lia.
Qed.

Lemma nonincreasing_mid (A B : leaderboard) (x : entry) :
  nonincreasing (A ++ B) = true ->
  Forall (fun a => fle (score x) (score a) = true) A ->
  Forall (fun b => fle (score b) (score x) = true) B ->
  nonincreasing (A ++ x :: B) = true.
Proof.
  induction A as [|a A IH]; intros H HA HB.
  - destruct B as [|b B]; [reflexivity|].
    inversion HB as [|? ? Hb _]; subst.
    change (fle (score b) (score x) && nonincreasing (b :: B) = true).
    rewrite Hb. exact H.
  - inversion HA as [|? ? Ha HA']; subst.
    rewrite <- app_comm_cons in H.
    apply nonincreasing_cons in H as [H Hhd].
    specialize (IH H HA' HB).
    destruct A as [|a' A].
    + change (fle (score x) (score a) && nonincreasing (x :: B) = true).
      rewrite Ha. exact IH.
    + change (fle (score a') (score a) && nonincreasing ((a' :: A) ++ x :: B) = true).
      rewrite (Hhd a' (A ++ B) eq_refl). exact IH.
Qed.

Lemma with_score_none (f : pyfloat) (l : leaderboard) :
  Forall (fun y => score y <> f) l -> with_score f l = [].
Proof.
  induction 1 as [|y l Hy _ IH]; [reflexivity|].
  unfold with_score in *; simpl.
  destruct (pyfloat_eq_dec (score y) f); [contradiction | exact IH].
Qed.

Lemma in_with_score (x : entry) (l : leaderboard) : In x l -> In x (with_score (score x) l).
Proof.
  intros H. unfold with_score. apply filter_In. split; [exact H|].
  destruct (pyfloat_eq_dec (score x) (score x)); [reflexivity | contradiction].
Qed.

Lemma with_score_in (f : pyfloat) (x : entry) (l : leaderboard) : In x (with_score f l) -> In x l.
Proof. unfold with_score; intros H. apply filter_In in H as [H _]. exact H. Qed.

Lemma nan_free_in (x : entry) (l : leaderboard) : nan_free l -> In x l -> is_nan (score x) = false.
Proof. unfold nan_free; rewrite Forall_forall; auto. Qed.

(** Two lists sorted by non-increasing score, with the same entries of
    each score in the same order, are equal. *)
Lemma sorted_unique (s1 s2 : leaderboard) :
  nan_free s1 -> nonincreasing s1 = true -> nonincreasing s2 = true ->
  (forall f, with_score f s1 = with_score f s2) -> s1 = s2.
Proof.
  revert s2; induction s1 as [|a s1 IH]; intros s2 Hf H1 H2 Hw.
  - destruct s2 as [|b s2]; [reflexivity|]. exfalso.
    pose proof (in_with_score b (b :: s2) (or_introl eq_refl)) as Hb.
    rewrite <- Hw in Hb. exact Hb.
  - destruct s2 as [|b s2].
    { exfalso. pose proof (in_with_score a (a :: s1) (or_introl eq_refl)) as Ha.
      rewrite Hw in Ha. exact Ha. }
    assert (Ha_in : In a (b :: s2)).
    { apply (with_score_in (score a)). rewrite <- Hw. apply in_with_score. left; reflexivity. }
    assert (Hb_in : In b (a :: s1)).
    { apply (with_score_in (score b)). rewrite Hw. apply in_with_score. left; reflexivity. }
    assert (Hna : is_nan (score a) = false) by (apply (nan_free_in a (a :: s1)); [exact Hf | left; reflexivity]).
    assert (Hnb : is_nan (score b) = false) by (apply (nan_free_in b (a :: s1)); assumption).
    assert (Hab : fle (score a) (score b) = true).
    { destruct Ha_in as [<- | Ha_in]; [apply fle_refl, Hna|].
      pose proof (nonincreasing_head_bound b s2 H2) as Hbd. rewrite Forall_forall in Hbd. auto. }
    assert (Hba : fle (score b) (score a) = true).
    { destruct Hb_in as [-> | Hb_in]; [apply fle_refl, Hnb|].
      pose proof (nonincreasing_head_bound a s1 H1) as Hbd. rewrite Forall_forall in Hbd. auto. }
    pose proof (fle_antisym _ _ Hab Hba) as Es.
    assert (a = b) as <-.
    { specialize (Hw (score a)). unfold with_score in Hw. simpl in Hw.
      destruct (pyfloat_eq_dec (score a) (score a)) as [_|C]; [|contradiction].
      destruct (pyfloat_eq_dec (score b) (score a)) as [_|C]; [|congruence].
      injection Hw as Hw _. exact Hw. }
    f_equal. apply IH.
    + inversion Hf; assumption.
    + apply nonincreasing_cons in H1 as [H1 _]; exact H1.
    + apply nonincreasing_cons in H2 as [H2 _]; exact H2.
    + intros f. specialize (Hw f). unfold with_score in *. simpl in Hw.
      destruct (pyfloat_eq_dec (score a) f); [injection Hw as Hw; exact Hw | exact Hw].
Qed.

(** The binary search finds the index after every element the pivot is
    not smaller than, when those come first. *)
Lemma bisect_spec (fuel : nat) (pivot : entry) (pre : leaderboard) (l r : nat) :
  (r - l < fuel)%nat -> (l <= r)%nat -> (r <= List.length pre)%nat ->
  (forall i j y z, (i <= j)%nat -> nth_error pre i = Some y -> nth_error pre j = Some z ->
                   islt pivot y = true -> islt pivot z = true) ->
  (forall i y, (i < l)%nat -> nth_error pre i = Some y -> islt pivot y = false) ->
  (forall i y, (r <= i)%nat -> nth_error pre i = Some y -> islt pivot y = true) ->
  (forall i y, (i < bisect fuel pivot pre l r)%nat -> nth_error pre i = Some y -> islt pivot y = false) /\
  (forall i y, (bisect fuel pivot pre l r <= i)%nat -> nth_error pre i = Some y -> islt pivot y = true).
Proof.
  revert l r. induction fuel as [|f IH]; intros l r Hf Hlr Hr Hmono Hlo Hhi; [lia|].
  cbn [bisect]. destruct (Nat.ltb_spec l r) as [Hlt|Hge].
  - assert (Hp : (l <= l + (r - l) / 2 < r)%nat).
    { pose proof (Nat.div_lt (r - l) 2 ltac:(lia) ltac:(lia)). lia. }
    destruct (nth_error pre (l + (r - l) / 2)) as [y|] eqn:Ey.
    2: { apply nth_error_None in Ey. lia. }
    destruct (islt pivot y) eqn:Ep.
    + apply IH; try lia; auto.
      intros i z Hi Hz. exact (Hmono _ _ _ _ Hi Ey Hz Ep).
    + apply IH; try lia; auto.
      intros i z Hi Hz. destruct (islt pivot z) eqn:Ez; [|reflexivity].
      rewrite (Hmono i (l + (r - l) / 2)%nat z y ltac:(lia) Hz Ey Ez) in Ep. discriminate.
  - assert (l = r) as <- by lia. split; assumption.
Qed.

Lemma insert_at_perm (i : nat) (x : entry) (pre : leaderboard) :
  Permutation (firstn i pre ++ x :: skipn i pre) (x :: pre).
Proof.
  rewrite <- (firstn_skipn i pre) at 3.
  symmetry. apply Permutation_middle.
Qed.

(** One step of [binarysort] on a sorted prefix without NaN: the result
    is sorted and the new element comes after those of equal score. *)
Lemma bisect_insert (x : entry) (pre : leaderboard) :
  nan_free (x :: pre) -> nonincreasing pre = true ->
  nonincreasing (firstn (bisect (S (List.length pre)) x pre 0 (List.length pre)) pre ++
                 x :: skipn (bisect (S (List.length pre)) x pre 0 (List.length pre)) pre) = true /\
  (forall f, with_score f (firstn (bisect (S (List.length pre)) x pre 0 (List.length pre)) pre ++
                           x :: skipn (bisect (S (List.length pre)) x pre 0 (List.length pre)) pre) =
             with_score f (pre ++ [x])).
Proof.
  intros Hf Hs.
  inversion Hf as [|? ? Hx Hpre]; subst.
  assert (Hmono : forall i j y z, (i <= j)%nat -> nth_error pre i = Some y -> nth_error pre j = Some z ->
                                  islt x y = true -> islt x z = true).
  { intros i j y z Hij Hy Hz H. destruct (Nat.eq_dec i j) as [<-|Nij]; [congruence|].
    rewrite islt_score in *. eapply fle_flt_trans; [|exact H].
    apply (nonincreasing_nth_lt pre i j); auto; lia. }
  assert (H0 : forall i y, (i < 0)%nat -> nth_error pre i = Some y -> islt x y = false)
    by (intros i y Hi; exfalso; lia).
  assert (Hn : forall i y, (List.length pre <= i)%nat -> nth_error pre i = Some y -> islt x y = true)
    by (intros i y Hi Hy; apply nth_error_None in Hi; congruence).
  destruct (bisect_spec (S (List.length pre)) x pre 0 (List.length pre)
              ltac:(lia) ltac:(lia) ltac:(lia) Hmono H0 Hn) as [Hlo Hhi].
  set (i := bisect (S (List.length pre)) x pre 0 (List.length pre)) in *.
  assert (HA : Forall (fun a => fle (score x) (score a) = true) (firstn i pre)).
  { rewrite Forall_forall; intros a Ha. apply In_nth_error in Ha as [k Hk].
    rewrite nth_error_firstn in Hk. destruct (Nat.ltb_spec k i); [|discriminate].
    pose proof (Hlo k a H Hk) as E. rewrite islt_score in E.
    apply (flt_false_fle (score a) (score x)); [|exact Hx|exact E].
    apply (nan_free_in a pre Hpre). eapply nth_error_In; eauto. }
  assert (HB : Forall (fun b => flt (score b) (score x) = true) (skipn i pre)).
  { rewrite Forall_forall; intros b Hb. apply In_nth_error in Hb as [k Hk].
    rewrite nth_error_skipn in Hk. pose proof (Hhi (i + k)%nat b ltac:(lia) Hk) as E.
    rewrite islt_score in E. exact E. }
  split.
  - apply nonincreasing_mid; [rewrite firstn_skipn; exact Hs | exact HA |].
    eapply Forall_impl; [|exact HB]. intros b; apply flt_fle.
  - intros f.
    assert (E : pre ++ [x] = firstn i pre ++ skipn i pre ++ [x])
      by (rewrite app_assoc, firstn_skipn; reflexivity).
    rewrite E. unfold with_score. rewrite !filter_app. f_equal. cbn [filter app].
    destruct (pyfloat_eq_dec (score x) f) as [Ef|Nf].
    + fold (with_score f (skipn i pre)). rewrite with_score_none; [reflexivity|].
      eapply Forall_impl; [|exact HB]. intros b Hb Eb. cbv beta in Hb. rewrite Eb, <- Ef, flt_irrefl in Hb. discriminate.
    + rewrite app_nil_r. reflexivity.
Qed.

Lemma binarysort_perm (pre rest : leaderboard) : Permutation (binarysort pre rest) (pre ++ rest).
Proof.
  revert pre; induction rest as [|x rest IH]; intros pre; simpl.
  - rewrite app_nil_r; reflexivity.
  - eapply perm_trans; [apply IH|].
    eapply perm_trans; [apply Permutation_app_tail, insert_at_perm|].
    apply Permutation_middle.
Qed.

Lemma binarysort_sorted (pre rest : leaderboard) :
  nan_free (pre ++ rest) -> nonincreasing pre = true ->
  nonincreasing (binarysort pre rest) = true /\
  (forall f, with_score f (binarysort pre rest) = with_score f (pre ++ rest)).
Proof.
  revert pre; induction rest as [|x rest IH]; intros pre Hf Hs; cbn [binarysort].
  - rewrite app_nil_r in *. split; auto.
  - unfold nan_free in Hf. apply Forall_app in Hf as [Hp Hxr].
    inversion Hxr as [|? ? Hx Hr]; subst.
    destruct (bisect_insert x pre (Forall_cons _ Hx Hp) Hs) as [Hs' Hw'].
    set (ins := firstn (bisect (S (List.length pre)) x pre 0 (List.length pre)) pre ++
                x :: skipn (bisect (S (List.length pre)) x pre 0 (List.length pre)) pre) in *.
    destruct (IH ins) as [IH1 IH2]; [|exact Hs'|].
    + unfold nan_free. apply Forall_app; split; [|exact Hr].
      apply (nan_free_perm ins (x :: pre)); [apply insert_at_perm | constructor; auto].
    + split; [exact IH1|]. intros f. rewrite IH2.
      unfold with_score in *. rewrite filter_app, Hw'.
      change (x :: rest) with ([x] ++ rest). rewrite !filter_app, app_assoc. reflexivity.
Qed.

(** The run counted by [run_desc]: scores strictly increasing. *)
Lemma run_desc_chain (prev : entry) (l : leaderboard) :
  StronglySorted (fun a b => flt (score a) (score b) = true) (prev :: firstn (run_desc prev l) l).
Proof.
  revert prev; induction l as [|x l IH]; intros prev; cbn [run_desc].
  - rewrite firstn_nil. repeat constructor.
  - destruct (islt x prev) eqn:E.
    + cbn [firstn]. specialize (IH x). constructor; [exact IH|].
      rewrite islt_score in E. constructor; [exact E|].
      apply StronglySorted_inv in IH as [_ IH]. eapply Forall_impl; [|exact IH].
      intros y Hy. exact (flt_trans _ _ _ E Hy).
    + cbn [firstn]. repeat constructor.
Qed.

(** The run counted by [run_asc], without NaN: scores non-increasing. *)
Lemma run_asc_sorted (prev : entry) (l : leaderboard) :
  nan_free (prev :: l) -> nonincreasing (prev :: firstn (run_asc prev l) l) = true.
Proof.
  revert prev; induction l as [|x l IH]; intros prev Hf; cbn [run_asc].
  - reflexivity.
  - inversion Hf as [|? ? Hp Hl]; subst. inversion Hl as [|? ? Hx _]; subst.
    destruct (islt x prev) eqn:E; [reflexivity|].
    cbn [firstn]. change (fle (score x) (score prev) && nonincreasing (x :: firstn (run_asc x l) l) = true).
    rewrite islt_score in E. rewrite (flt_false_fle _ _ Hp Hx E). apply IH, Hl.
Qed.

Lemma rev_chain_sorted (l : leaderboard) :
  StronglySorted (fun a b => flt (score a) (score b) = true) l ->
  nonincreasing (List.rev l) = true /\ (forall f, with_score f (List.rev l) = with_score f l).
Proof.
  induction l as [|a l IH]; intros H; [split; reflexivity|].
  apply StronglySorted_inv in H as [H Ha]. destruct (IH H) as [IH1 IH2].
  cbn [List.rev]. split.
  - rewrite <- (app_nil_r (List.rev l)) in IH1. rewrite <- (app_nil_r (List.rev l)) at 1.
    rewrite <- app_assoc. apply nonincreasing_mid; [exact IH1| |constructor].
    apply Forall_rev. eapply Forall_impl; [|exact Ha]. intros b; apply flt_fle.
  - intros f. unfold with_score in *. rewrite filter_app, IH2. cbn [filter].
    destruct (pyfloat_eq_dec (score a) f) as [Ef|Nf].
    + fold (with_score f l). rewrite with_score_none; [reflexivity|].
      eapply Forall_impl; [|exact Ha]. intros b Hb Eb. cbv beta in Hb. rewrite Eb, <- Ef, flt_irrefl in Hb. discriminate.
    + apply app_nil_r.
Qed.

(** The first run, reversed if it is descending, is sorted and keeps the
    entries of each score in their order. *)
Lemma first_run_sorted (l : leaderboard) :
  nan_free l -> (2 <= List.length l)%nat ->
  let '(n, d) := count_run l in
  nonincreasing (if d then List.rev (firstn n l) else firstn n l) = true /\
  (forall f, with_score f (if d then List.rev (firstn n l) else firstn n l) = with_score f (firstn n l)).
Proof.
  intros Hf Hl. destruct l as [|x [|y l]]; cbn in Hl; try lia. cbn [count_run].
  destruct (islt y x) eqn:E.
  - assert (Er : firstn (S (S (run_desc y l))) (x :: y :: l) = x :: firstn (run_desc x (y :: l)) (y :: l))
      by (cbn [run_desc firstn]; rewrite E; reflexivity).
    rewrite Er. apply rev_chain_sorted, run_desc_chain.
  - assert (Er : firstn (S (S (run_asc y l))) (x :: y :: l) = x :: firstn (run_asc x (y :: l)) (y :: l))
      by (cbn [run_asc firstn]; rewrite E; reflexivity).
    rewrite Er. split; [apply run_asc_sorted, Hf | reflexivity].
Qed.

Lemma first_run_perm (n : nat) (d : bool) (l : leaderboard) :
  Permutation ((if d then List.rev (firstn n l) else firstn n l) ++ skipn n l) l.
Proof.
  apply (Permutation_trans (l' := firstn n l ++ skipn n l)); [|rewrite firstn_skipn; reflexivity].
  apply Permutation_app_tail. destruct d; [symmetry; apply Permutation_rev | reflexivity].
Qed.

Lemma list_sort_perm (l r : leaderboard) : list_sort l = Some r -> Permutation r l.
Proof.
  unfold list_sort. destruct (List.length l <? 2)%nat; [intros [= <-]; reflexivity|].
  destruct (64 <=? List.length l)%nat; [discriminate|].
  destruct (count_run l) as [n d]. intros [= <-].
  eapply perm_trans; [apply binarysort_perm | apply first_run_perm].
Qed.

Lemma list_sort_sorted (l r : leaderboard) :
  nan_free l -> list_sort l = Some r ->
  nonincreasing r = true /\ (forall f, with_score f r = with_score f l).
Proof.
  intros Hf. unfold list_sort. destruct (Nat.ltb_spec (List.length l) 2) as [Hlt|Hge].
  - intros [= <-]. split; [|reflexivity].
    destruct l as [|x [|y l]]; cbn in Hlt; try lia; reflexivity.
  - destruct (64 <=? List.length l)%nat; [discriminate|].
    pose proof (first_run_sorted l Hf Hge) as Hrun.
    destruct (count_run l) as [n d]. destruct Hrun as [Hs Hw]. intros [= <-].
    destruct (binarysort_sorted (if d then List.rev (firstn n l) else firstn n l) (skipn n l))
      as [H1 H2]; [|exact Hs|].
    + apply (nan_free_perm _ l); [apply first_run_perm | exact Hf].
    + split; [exact H1|]. intros f. rewrite H2.
      rewrite <- (firstn_skipn n l) at 4. unfold with_score in *. rewrite !filter_app, Hw. reflexivity.
Qed.

(** Without NaN, CPython's sort returns the list of the insertion sort. *)
Lemma list_sort_nan_free (l r : leaderboard) : nan_free l -> list_sort l = Some r -> r = sorted_by_key l.
Proof.
  intros Hf Hr. destruct (list_sort_sorted l r Hf Hr) as [H1 H2].
  symmetry. apply sorted_unique.
  - eapply nan_free_perm; [apply sorted_by_key_perm | exact Hf].
  - apply sorted_by_key_nonincreasing, Hf.
  - exact H1.
  - intros f. rewrite with_score_sorted, H2. reflexivity.
Qed.

Lemma py_sorted_nan_free (l : leaderboard) : nan_free l -> py_sorted l = sorted_by_key l.
Proof.
  intros Hf. unfold py_sorted. destruct (list_sort l) as [r|] eqn:E; [|reflexivity].
  exact (list_sort_nan_free l r Hf E).
Qed.

Lemma py_sorted_perm (l : leaderboard) : Permutation (py_sorted l) l.
Proof.
  unfold py_sorted. destruct (list_sort l) as [r|] eqn:E.
  - exact (list_sort_perm l r E).
  - apply sorted_by_key_perm.
Qed.

(** ** [update] *)

Lemma update_in (e x : entry) (old : leaderboard) : In x (update e old) -> In x (e :: old).
Proof.
  unfold update; intros H.
  apply (Permutation_in x (py_sorted_perm (e :: old))).
  rewrite <- (firstn_skipn 10 (py_sorted (e :: old))).
  apply in_or_app; left; exact H.
Qed.

Lemma update_nan_free (e : entry) (old : leaderboard) :
  nan_free (e :: old) -> update e old = firstn 10 (sorted_by_key (e :: old)).
Proof. intros Hf. unfold update. rewrite py_sorted_nan_free by exact Hf. reflexivity. Qed.

(** The same for [update]: the prior entries keep their order. *)
Lemma update_sorted_split (e : entry) (old : leaderboard) :
  nan_free (e :: old) -> nonincreasing old = true ->
  exists l1 l2, old = l1 ++ l2 /\ update e old = firstn 10 (l1 ++ e :: l2) /\
    Forall (fun y => flt (score e) (score y) = true) l1 /\
    Forall (fun y => fle (score y) (score e) = true) l2.
Proof.
  intros Hf Hs. inversion Hf as [|? ? He Hold]; subst.
  destruct (insert_sorted_split e old He Hold Hs) as (l1 & l2 & Eo & Ei & F1 & F2).
  exists l1, l2; repeat split; auto.
  rewrite update_nan_free by exact Hf. cbn [sorted_by_key].
  rewrite sorted_by_key_id, Ei by assumption. reflexivity.
Qed.


(** ** The handler on its paths *)

Lemma main_submit_invalid (rf : text -> option pyfloat) (now : text) (req : request) (st : store) :
  path req = "/submit"%string -> method req = "POST"%string -> validate rf req = None ->
  main rf now req st = (bad_request, st).
Proof.
  intros Hp Hm Hv. unfold main, submit. rewrite Hp, Hm, Hv. reflexivity.
Qed.

Lemma main_submit_ok (rf : text -> option pyfloat) (now : text) (req : request) (st : store)
      (nm : text) (sco : pyfloat) (raw : text) (data : leaderboard) :
  path req = "/submit"%string -> method req = "POST"%string ->
  validate rf req = Some (nm, sco) -> blob st = Some raw -> Json.loads raw = Some data ->
  writable st = true ->
  main rf now req st =
    (Response (BList (update (mkEntry nm sco now) data)) 200,
     mkStore (Some (Json.dumps (update (mkEntry nm sco now) data))) true (S (uploads st))).
Proof.
  intros Hp Hm Hv Hb Hl Hw. unfold main, submit, read_storage, write_storage.
  rewrite Hp, Hm, Hv, Hb, Hl, Hw. reflexivity.
Qed.

Lemma update_split (e : entry) (old : leaderboard) :
  nan_free (e :: old) ->
  exists l1 l2, update e old = firstn 10 (l1 ++ e :: l2) /\ Permutation (l1 ++ l2) old /\
                Forall (fun y => flt (score e) (score y) = true) l1.
Proof.
  intros Hf. rewrite update_nan_free by exact Hf. cbn [sorted_by_key].
  destruct (insert_by_key_split e (sorted_by_key old)) as (l1 & l2 & E & E' & F).
  exists l1, l2; repeat split; auto.
  - rewrite E; reflexivity.
  - rewrite <- E'. apply sorted_by_key_perm.
Qed.

(** Without NaN the list written back has at most ten entries, sorted by
    non-increasing score. *)
Lemma update_bounded_sorted (e : entry) (old : leaderboard) :
  nan_free (e :: old) ->
  (List.length (update e old) <= 10)%nat /\ nonincreasing (update e old) = true.
Proof.
  intros H; split; [apply update_length|].
  rewrite update_nan_free by exact H.
  apply nonincreasing_firstn, sorted_by_key_nonincreasing, H.
Qed.

(** ** Lemmas on the JSON text format *)

Module JsonFacts.
Import Json.

Lemma app_single (a : N) (l : text) : [a] ++ l = a :: l.
Proof. reflexivity. Qed.

Lemma span_digits_uint (u : uint) (s : text) :
  head_not_digit s -> span_digits (uint_chars u ++ s) = (u, s).
Proof.
  intros Hs. induction u; simpl; try (rewrite IHu; reflexivity).
  destruct s as [|c s]; simpl in *; [reflexivity|]. rewrite Hs. reflexivity.
Qed.

Lemma to_uint_nonempty (q : N) : nonempty (N.to_uint q) = true.
Proof.
  destruct q as [|p]; [reflexivity|]. simpl.
  pose proof (DecimalPos.Unsigned.to_uint_nonnil p) as H.
  destruct (Pos.to_uint p); simpl; congruence.
Qed.

Lemma to_uint_digit (r : N) :
  r < 10 ->
  exists d, N.to_uint r = d /\
    match d with
    | D0 Nil | D1 Nil | D2 Nil | D3 Nil | D4 Nil | D5 Nil
    | D6 Nil | D7 Nil | D8 Nil | D9 Nil => True
    | _ => False
    end.
Proof.
  intros H.
  assert (r = 0 \/ r = 1 \/ r = 2 \/ r = 3 \/ r = 4 \/ r = 5 \/ r = 6 \/ r = 7 \/ r = 8 \/ r = 9)
    as E by lia.
  repeat destruct E as [E|E]; subst; eexists; split; try reflexivity; exact I.
Qed.

Lemma parse_unsigned_dec (q r : N) (s : text) :
  r < 10 -> head_not_digit s ->
  parse_unsigned (dec q ++ 46 :: dec r ++ s) = Some (10 * q + r, s).
Proof.
  intros Hr Hs. unfold parse_unsigned, dec.
  rewrite span_digits_uint by reflexivity.
  rewrite to_uint_nonempty. simpl. rewrite span_digits_uint by exact Hs.
  destruct (to_uint_digit r Hr) as (d & Ed & Hd).
  rewrite Ed.
  destruct d as [|d|d|d|d|d|d|d|d|d|d]; try contradiction;
    destruct d; try contradiction;
    rewrite <- Ed, !DecimalN.Unsigned.of_to; reflexivity.
Qed.

(** The decimal digits of a number have no leading zero. *)
Lemma to_uint_D0 (q : N) (u : uint) : N.to_uint q = D0 u -> u = Nil.
Proof.
  intros E. pose proof (DecimalN.Unsigned.to_of (N.to_uint q)) as H.
  rewrite DecimalN.Unsigned.of_to, E in H. unfold unorm in H. simpl nzhead in H.
  pose proof (DecimalFacts.nb_digits_nzhead u) as Hn.
  destruct (nzhead u) eqn:En; try discriminate H.
  - injection H as H. exact H.
  - injection H as <-. simpl in Hn. lia.
Qed.

Lemma parse_json_unsigned_nz (c : N) (s : text) :
  c <> 48 -> parse_json_unsigned (c :: s) = parse_unsigned (c :: s).
Proof.
  intros Hc. unfold parse_json_unsigned. destruct s as [|d s]; [reflexivity|].
  apply N.eqb_neq in Hc. rewrite Hc. reflexivity.
Qed.

Lemma parse_json_unsigned_dec (q r : N) (s : text) :
  r < 10 -> head_not_digit s ->
  parse_json_unsigned (dec q ++ 46 :: dec r ++ s) = Some (10 * q + r, s).
Proof.
  intros Hr Hs. rewrite <- (parse_unsigned_dec q r s Hr Hs).
  pose proof (to_uint_nonempty q) as Hne. unfold dec.
  destruct (N.to_uint q) as [|u|u|u|u|u|u|u|u|u|u] eqn:Eq; try discriminate Hne;
    cbn [uint_chars app]; try (apply parse_json_unsigned_nz; discriminate).
  rewrite (to_uint_D0 q u Eq). reflexivity.
Qed.

(** Decimal digits start with a digit. *)
Lemma dec_head (q : N) (s : text) :
  exists c s', dec q ++ s = c :: s' /\ is_digit c = true.
Proof.
  unfold dec. pose proof (to_uint_nonempty q) as H.
  destruct (N.to_uint q); try discriminate; simpl; eexists _, _; split; reflexivity.
Qed.

Lemma hex_value_digit (d : N) : d < 16 -> hex_value (hex_digit d) = Some d.
Proof.
  intros H. unfold hex_digit, hex_value.
  destruct (N.ltb_spec d 10).
  - destruct (N.leb_spec 48 (48 + d)), (N.leb_spec (48 + d) 57); cbn [andb]; try lia.
    f_equal; lia.
  - destruct (N.leb_spec 48 (87 + d)), (N.leb_spec (87 + d) 57); cbn [andb]; try lia;
    destruct (N.leb_spec 97 (87 + d)), (N.leb_spec (87 + d) 102); cbn [andb]; try lia.
    f_equal; lia.
Qed.

Lemma dec_hex4_hex4 (v : N) :
  v < 65536 ->
  dec_hex4 (hex_digit (v / 4096)) (hex_digit (v / 256 mod 16))
           (hex_digit (v / 16 mod 16)) (hex_digit (v mod 16)) = Some v.
Proof.
  intros H. unfold dec_hex4.
  assert (E1 : v / 256 = v / 16 / 16) by (rewrite N.Div0.div_div; reflexivity).
  assert (E2 : v / 4096 = v / 16 / 16 / 16) by (rewrite !N.Div0.div_div; reflexivity).
  pose proof (N.div_mod v 16 ltac:(discriminate)) as D0.
  pose proof (N.div_mod (v / 16) 16 ltac:(discriminate)) as D1.
  pose proof (N.div_mod (v / 16 / 16) 16 ltac:(discriminate)) as D2.
  pose proof (N.mod_lt v 16 ltac:(discriminate)).
  pose proof (N.mod_lt (v / 16) 16 ltac:(discriminate)).
  pose proof (N.mod_lt (v / 16 / 16) 16 ltac:(discriminate)).
  assert (v / 16 / 16 / 16 < 16).
  { apply N.Div0.div_lt_upper_bound.
    apply N.Div0.div_lt_upper_bound.
    apply N.Div0.div_lt_upper_bound. lia. }
  rewrite E1, E2, !hex_value_digit by assumption.
  f_equal. lia.
Qed.

Lemma scan_string_raw (c : N) (s : text) :
  c <> 34 -> c <> 92 -> 32 <= c -> scan_string (c :: s) = cons_res c (scan_string s).
Proof.
  intros H1 H2 H3. cbn -[N.eqb N.ltb].
  rewrite (proj2 (N.eqb_neq c 34) H1), (proj2 (N.eqb_neq c 92) H2).
  destruct (N.ltb_spec c 32); [lia | reflexivity].
Qed.

Lemma scan_string_u (c : N) (s : text) :
  c < 65536 -> is_high c = false ->
  scan_string (92 :: 117 :: hex4 c ++ s) = cons_res c (scan_string s).
Proof.
  intros H1 H2. unfold hex4. rewrite <- !app_comm_cons, app_nil_l.
  cbn -[N.eqb N.ltb dec_hex4 is_high hex_digit N.div N.modulo].
  rewrite dec_hex4_hex4 by exact H1. rewrite H2. reflexivity.
Qed.

Lemma scan_string_pair (hi lo : N) (s : text) :
  hi < 65536 -> lo < 65536 -> is_high hi = true -> is_low lo = true ->
  scan_string (92 :: 117 :: hex4 hi ++ 92 :: 117 :: hex4 lo ++ s) =
  cons_res (combine hi lo) (scan_string s).
Proof.
  intros H1 H2 H3 H4. unfold hex4. rewrite <- !app_comm_cons, !app_nil_l.
  cbn -[N.eqb N.ltb dec_hex4 is_high is_low combine hex_digit N.div N.modulo].
  rewrite dec_hex4_hex4 by exact H1. rewrite H3.
  cbn -[N.eqb N.ltb dec_hex4 is_high is_low combine hex_digit N.div N.modulo].
  rewrite dec_hex4_hex4 by exact H2. rewrite H4. reflexivity.
Qed.

Lemma scan_string_enc_char (c : N) (s : text) :
  scalar c = true -> scan_string (enc_char c ++ s) = cons_res c (scan_string s).
Proof.
  unfold scalar; intros Hc. apply andb_prop in Hc as [Hc1 Hc2].
  apply N.ltb_lt in Hc1. apply negb_true_iff in Hc2.
  unfold enc_char.
  destruct (N.eqb_spec c 92) as [->|N92]; [reflexivity|].
  destruct (N.eqb_spec c 34) as [->|N34]; [reflexivity|].
  destruct (N.leb_spec 32 c), (N.leb_spec c 126); cbn [andb].
  { rewrite app_single. apply scan_string_raw; auto. }
  all: destruct (N.eqb_spec c 8) as [->|N8]; [reflexivity|].
  all: destruct (N.eqb_spec c 12) as [->|N12]; [reflexivity|].
  all: destruct (N.eqb_spec c 10) as [->|N10]; [reflexivity|].
  all: destruct (N.eqb_spec c 13) as [->|N13]; [reflexivity|].
  all: destruct (N.eqb_spec c 9) as [->|N9]; [reflexivity|].
  all: destruct (N.ltb_spec c 65536).
  all: try (rewrite <- !app_comm_cons; apply scan_string_u; [assumption|];
            unfold is_high; destruct (N.leb_spec 55296 c), (N.leb_spec c 56319); cbn [andb];
            try reflexivity;
            destruct (N.leb_spec 55296 c), (N.leb_spec c 57343); cbn [andb] in Hc2;
            try discriminate; lia).
  all: try lia.
  all: rewrite <- !app_assoc, <- !app_comm_cons; rewrite scan_string_pair.
  all: try (unfold combine; f_equal;
            pose proof (N.div_mod (c - 65536) 1024 ltac:(discriminate));
            pose proof (N.mod_lt (c - 65536) 1024 ltac:(discriminate));
            set (q := (c - 65536) / 1024) in *; set (r := (c - 65536) mod 1024) in *;
            clearbody q r; lia).
  all: pose proof (N.div_mod (c - 65536) 1024 ltac:(discriminate));
       pose proof (N.mod_lt (c - 65536) 1024 ltac:(discriminate));
       set (q := (c - 65536) / 1024) in *; set (r := (c - 65536) mod 1024) in *;
       clearbody q r.
  all: try lia.
  all: unfold is_high, is_low.
  all: repeat match goal with |- context [?a <=? ?b] => destruct (N.leb_spec a b) end;
       cbn [andb]; try reflexivity; lia.
Qed.

Lemma expect_head_neq (a c : N) (p s : text) :
  (a =? c) = false -> expect (a :: p) (c :: s) = None.
Proof. intros H; simpl; rewrite H; reflexivity. Qed.

Lemma expect_cons_eq (a : N) (p s : text) : expect (a :: p) (a :: s) = expect p s.
Proof. simpl; rewrite N.eqb_refl; reflexivity. Qed.

Lemma parse_float_enc (f : pyfloat) (s : text) :
  head_not_digit s -> parse_float (enc_float f ++ s) = Some (f, s).
Proof.
  intros Hs. destruct f as [k| | |]; try reflexivity.
  assert (E : enc_float (Fin k) ++ s =
    (if (k <? 0)%Z then [45] else []) ++
    dec (Z.to_N (Z.abs k) / 10) ++ 46 :: dec (Z.to_N (Z.abs k) mod 10) ++ s)
    by (unfold enc_float; rewrite <- !app_assoc; reflexivity).
  rewrite E; clear E.
  assert (Hr : Z.to_N (Z.abs k) mod 10 < 10) by (apply N.mod_lt; discriminate).
  pose proof (N.div_mod (Z.to_N (Z.abs k)) 10 ltac:(discriminate)) as Hdm.
  destruct (dec_head (Z.to_N (Z.abs k) / 10) (46 :: dec (Z.to_N (Z.abs k) mod 10) ++ s))
    as (c & s' & Ec & Hc).
  unfold is_digit in Hc. apply andb_prop in Hc as [Hc1 Hc2].
  apply N.leb_le in Hc1. apply N.leb_le in Hc2.
  unfold parse_float.
  change (txt "NaN") with (78 :: [97; 78]).
  change (txt "Infinity") with (73 :: txt "nfinity").
  change (txt "-Infinity") with (45 :: 73 :: txt "nfinity").
  destruct (Z.ltb_spec k 0) as [Hk|Hk]; [rewrite app_single | rewrite app_nil_l].
  - rewrite !expect_head_neq by reflexivity.
    rewrite expect_cons_eq, Ec, expect_head_neq by (apply N.eqb_neq; lia).
    simpl expect. rewrite <- Ec, parse_json_unsigned_dec by assumption.
    f_equal. f_equal. f_equal. lia.
  - rewrite Ec, !expect_head_neq by (apply N.eqb_neq; lia).
    rewrite <- Ec, parse_json_unsigned_dec by assumption.
    f_equal. f_equal. f_equal. lia.
Qed.

Lemma scan_string_enc (t : text) (s : text) :
  forallb scalar t = true -> scan_string (flat_map enc_char t ++ 34 :: s) = Some (t, s).
Proof.
  induction t as [|c t IH]; simpl; intros H; [reflexivity|].
  apply andb_prop in H as [Hc Ht].
  rewrite <- app_assoc, scan_string_enc_char, IH by assumption. reflexivity.
Qed.

Lemma parse_string_enc (t : text) (s : text) :
  forallb scalar t = true -> parse_string (enc_string t ++ s) = Some (t, s).
Proof.
  intros H. unfold enc_string. rewrite <- app_comm_cons, <- app_assoc.
  apply scan_string_enc, H.
Qed.

Lemma skip_ws_stop (c : N) (r : text) : is_ws c = false -> skip_ws (c :: r) = c :: r.
Proof.
  intros H. change (skip_ws (c :: r)) with (if is_ws c then skip_ws r else c :: r).
  rewrite H; reflexivity.
Qed.

Lemma enc_string_head (t s : text) : exists r, enc_string t ++ s = 34 :: r.
Proof. eexists; reflexivity. Qed.

Lemma enc_float_head (f : pyfloat) (s : text) :
  exists c r, enc_float f ++ s = c :: r /\ is_ws c = false /\ (c =? 34) = false.
Proof.
  destruct f as [k| | |]; try (eexists _, _; split; [reflexivity | split; reflexivity]).
  unfold enc_float. destruct (k <? 0)%Z.
  - eexists _, _; split; [reflexivity | split; reflexivity].
  - rewrite app_nil_l, <- app_assoc.
    destruct (dec_head (Z.to_N (Z.abs k) / 10) ((46 :: dec (Z.to_N (Z.abs k) mod 10)) ++ s))
      as (c & r & E & Hc).
    rewrite E. exists c, r. split; [reflexivity|].
    unfold is_digit in Hc. apply andb_prop in Hc as [Hc1 Hc2].
    apply N.leb_le in Hc1. apply N.leb_le in Hc2. unfold is_ws.
    repeat match goal with |- context [?a =? ?b] => destruct (N.eqb_spec a b) end;
      cbn [orb]; try reflexivity; lia.
Qed.

Lemma enc_key_eq (k : string) (s : text) :
  enc_key k ++ s = enc_string (txt k) ++ 58 :: 32 :: s.
Proof. unfold enc_key. rewrite <- app_assoc. reflexivity. Qed.

Lemma parse_member_str (k : string) (v s : text) :
  forallb scalar (txt k) = true -> forallb scalar v = true ->
  parse_member (enc_key k ++ enc_string v ++ s) = Some ((txt k, JStr v), s).
Proof.
  intros Hk Hv. unfold parse_member.
  rewrite enc_key_eq, parse_string_enc by exact Hk.
  rewrite skip_ws_stop by reflexivity. cbn [expect]. rewrite N.eqb_refl.
  change (skip_ws (32 :: enc_string v ++ s)) with (skip_ws (enc_string v ++ s)).
  destruct (enc_string_head v s) as (r & E).
  rewrite E, skip_ws_stop, <- E by reflexivity.
  unfold parse_value. rewrite parse_string_enc by exact Hv. reflexivity.
Qed.

Lemma parse_member_num (k : string) (f : pyfloat) (s : text) :
  forallb scalar (txt k) = true -> head_not_digit s ->
  parse_member (enc_key k ++ enc_float f ++ s) = Some ((txt k, JNum f), s).
Proof.
  intros Hk Hs. unfold parse_member.
  rewrite enc_key_eq, parse_string_enc by exact Hk.
  rewrite skip_ws_stop by reflexivity. cbn [expect]. rewrite N.eqb_refl.
  change (skip_ws (32 :: enc_float f ++ s)) with (skip_ws (enc_float f ++ s)).
  destruct (enc_float_head f s) as (c & r & E & Hw & Hq).
  rewrite E, skip_ws_stop, <- E by exact Hw.
  unfold parse_value. rewrite E. unfold parse_string at 1. rewrite Hq.
  rewrite <- E, parse_float_enc by exact Hs. reflexivity.
Qed.

Lemma members_rest_S (f : nat) (s : text) :
  members_rest (S f) s =
  match skip_ws s with
  | c :: s' =>
    if c =? 125 then Some ([], s')
    else if c =? 44 then
      match parse_member (skip_ws s') with
      | Some (m, r) =>
        match members_rest f r with
        | Some (ms, r') => Some (m :: ms, r')
        | None => None
        end
      | None => None
      end
    else None
  | [] => None
  end.
Proof. reflexivity. Qed.

Lemma items_rest_S (f : nat) (s : text) :
  items_rest (S f) s =
  match skip_ws s with
  | c :: s' =>
    if c =? 93 then Some ([], s')
    else if c =? 44 then
      match parse_entry f (skip_ws s') with
      | Some (e, r) =>
        match items_rest f r with
        | Some (es, r') => Some (e :: es, r')
        | None => None
        end
      | None => None
      end
    else None
  | [] => None
  end.
Proof. reflexivity. Qed.

Lemma enc_entry_eq (e : entry) (s : text) :
  enc_entry e ++ s =
  123 :: enc_key "name" ++ enc_string (name e) ++ 44 :: 32 ::
  enc_key "score" ++ enc_float (score e) ++ 44 :: 32 ::
  enc_key "timestamp" ++ enc_string (timestamp e) ++ 125 :: s.
Proof. unfold enc_entry. rewrite <- !app_assoc. reflexivity. Qed.

Lemma enc_key_head (k : string) (s : text) : exists r, enc_key k ++ s = 34 :: r.
Proof. rewrite enc_key_eq. apply enc_string_head. Qed.

Lemma skip_ws_key (k : string) (s : text) : skip_ws (enc_key k ++ s) = enc_key k ++ s.
Proof. destruct (enc_key_head k s) as (r & E). rewrite E. apply skip_ws_stop; reflexivity. Qed.

Lemma parse_entry_enc (fuel : nat) (e : entry) (s : text) :
  (3 <= fuel)%nat -> entry_scalar e = true -> parse_entry fuel (enc_entry e ++ s) = Some (e, s).
Proof.
  intros Hf He. unfold entry_scalar in He. apply andb_prop in He as [Hn Ht].
  destruct fuel as [|[|[|f]]]; try lia.
  rewrite enc_entry_eq. unfold parse_entry, parse_object. cbv beta iota.
  rewrite N.eqb_refl, skip_ws_key.
  destruct (enc_key_head "name" (enc_string (name e) ++ 44 :: 32 :: enc_key "score" ++
              enc_float (score e) ++ 44 :: 32 :: enc_key "timestamp" ++
              enc_string (timestamp e) ++ 125 :: s)) as (r & E).
  rewrite E. change (34 =? 125) with false. cbv beta iota. rewrite <- E.
  rewrite parse_member_str by (reflexivity || exact Hn).
  rewrite members_rest_S, skip_ws_stop by reflexivity.
  change (44 =? 125) with false. change (44 =? 44) with true. cbv beta iota.
  change (skip_ws (32 :: enc_key "score" ++ enc_float (score e) ++ 44 :: 32 :: enc_key "timestamp" ++
              enc_string (timestamp e) ++ 125 :: s))
    with (skip_ws (enc_key "score" ++ enc_float (score e) ++ 44 :: 32 :: enc_key "timestamp" ++
              enc_string (timestamp e) ++ 125 :: s)).
  rewrite skip_ws_key, parse_member_num by reflexivity.
  rewrite members_rest_S, skip_ws_stop by reflexivity.
  change (44 =? 125) with false. change (44 =? 44) with true. cbv beta iota.
  change (skip_ws (32 :: enc_key "timestamp" ++ enc_string (timestamp e) ++ 125 :: s))
    with (skip_ws (enc_key "timestamp" ++ enc_string (timestamp e) ++ 125 :: s)).
  rewrite skip_ws_key, parse_member_str by (reflexivity || exact Ht).
  rewrite members_rest_S, skip_ws_stop by reflexivity.
  change (125 =? 125) with true. cbv beta iota.
  destruct e as [n f0 t]. reflexivity.
Qed.

Lemma enc_entry_head (e : entry) (s : text) : exists c r, enc_entry e ++ s = 123 :: c :: r.
Proof.
  rewrite enc_entry_eq. destruct (enc_key_head "name" (enc_string (name e) ++ 44 :: 32 ::
    enc_key "score" ++ enc_float (score e) ++ 44 :: 32 ::
    enc_key "timestamp" ++ enc_string (timestamp e) ++ 125 :: s)) as (r & ->).
  eexists _, _; reflexivity.
Qed.

Lemma length_enc_entry (e : entry) : (2 <= List.length (enc_entry e))%nat.
Proof.
  destruct (enc_entry_head e []) as (c & r & E). rewrite app_nil_r in E.
  rewrite E; simpl; lia.
Qed.

Lemma length_enc_items (l : leaderboard) : (List.length l <= List.length (enc_items l))%nat.
Proof.
  induction l as [|e l IH]; simpl; [lia|].
  rewrite length_app. lia.
Qed.

Lemma items_rest_enc (l : leaderboard) (fuel : nat) (s : text) :
  (List.length l + 4 <= fuel)%nat -> forallb entry_scalar l = true ->
  items_rest fuel (enc_items l ++ 93 :: s) = Some (l, s).
Proof.
  revert fuel; induction l as [|e l IH]; intros fuel Hf Hl;
    (destruct fuel as [|f]; [lia|]); rewrite items_rest_S.
  - change (enc_items [] ++ 93 :: s) with (93 :: s). rewrite skip_ws_stop by reflexivity. reflexivity.
  - simpl in Hl. apply andb_prop in Hl as [He Hl].
    change (enc_items (e :: l)) with (txt ", " ++ enc_entry e ++ enc_items l).
    rewrite <- !app_assoc.
    change (txt ", ") with [44; 32]. rewrite <- !app_comm_cons, app_nil_l.
    rewrite skip_ws_stop by reflexivity.
    change (44 =? 93) with false. change (44 =? 44) with true. cbv beta iota.
    change (skip_ws (32 :: enc_entry e ++ enc_items l ++ 93 :: s))
      with (skip_ws (enc_entry e ++ enc_items l ++ 93 :: s)).
    destruct (enc_entry_head e (enc_items l ++ 93 :: s)) as (c & r & E).
    rewrite E, skip_ws_stop, <- E by reflexivity.
    rewrite parse_entry_enc by (simpl in Hf; lia || exact He).
    rewrite IH by (simpl in Hf; lia || exact Hl). reflexivity.
Qed.

Lemma loads_dumps (l : leaderboard) : forallb entry_scalar l = true -> loads (dumps l) = Some l.
Proof.
  destruct l as [|e l]; intros H; [reflexivity|].
  simpl in H. apply andb_prop in H as [He Hl].
  assert (Hlen : (List.length l + 4 <= List.length (dumps (e :: l)))%nat).
  { unfold dumps. rewrite !length_app.
    pose proof (length_enc_entry e). pose proof (length_enc_items l). simpl; lia. }
  unfold loads. set (fuel := List.length (dumps (e :: l))) in *. clearbody fuel.
  unfold dumps. rewrite app_single, skip_ws_stop by reflexivity.
  rewrite N.eqb_refl.
  destruct (enc_entry_head e (enc_items l ++ [93])) as (c & r & E).
  rewrite E, skip_ws_stop by reflexivity.
  change (123 =? 93) with false. cbv beta iota.
  rewrite <- E, parse_entry_enc by (lia || exact He).
  rewrite items_rest_enc by (lia || exact Hl). reflexivity.
Qed.

End JsonFacts.

(** ** Claims *)

(** C1 (code_bug). The list written back is not always sorted by
    non-increasing score. [score=nan] passes the range check, because
    both [nan <= 0] and [nan > 100000] are false, so NaN is stored. A
    later valid submission of 50 is then written back as [[50, NaN]], and
    [50 >= NaN] is false. Every order of these two entries fails the
    same way. *)
Theorem C1_nan_breaks_order :
  main round_float1_lit (txt "T1") (submit_req "A" "nan") (store_of [] 0) =
    (Response (BList [mkEntry (txt "A") NaN (txt "T1")]) 200,
     store_of [mkEntry (txt "A") NaN (txt "T1")] 1) /\
  main round_float1_lit (txt "T2") (submit_req "B" "50") (store_of [mkEntry (txt "A") NaN (txt "T1")] 1) =
    (Response (BList [ent "B" 500 "T2"; mkEntry (txt "A") NaN (txt "T1")]) 200,
     store_of [ent "B" 500 "T2"; mkEntry (txt "A") NaN (txt "T1")] 2) /\
  nonincreasing [ent "B" 500 "T2"; mkEntry (txt "A") NaN (txt "T1")] = false.
Proof. vm_compute. repeat split; reflexivity. Qed.

(** C2. Without NaN scores, the sorted list is the entries scoring
    strictly higher than the new entry, then the new entry, then the other
    prior entries. A prior entry with an equal score therefore comes after
    the new one. On the persisted list [[{A,50},{B,40}]] the submission
    [{C,50}] gives [[{C,50},{A,50},{B,40}]]. *)
Theorem C2_new_entry_first_among_ties :
  (forall (e : entry) (old : leaderboard),
     nan_free (e :: old) ->
     exists l1 l2, update e old = firstn 10 (l1 ++ e :: l2) /\ Permutation (l1 ++ l2) old /\
                   Forall (fun y => flt (score e) (score y) = true) l1) /\
  main round_float1_lit (txt "T3") (submit_req "C" "50")
       (store_of [ent "A" 500 "T1"; ent "B" 400 "T2"] 0) =
    (Response (BList [ent "C" 500 "T3"; ent "A" 500 "T1"; ent "B" 400 "T2"]) 200,
     store_of [ent "C" 500 "T3"; ent "A" 500 "T1"; ent "B" 400 "T2"] 1).
Proof.
  split; [apply update_split|].
  vm_compute. reflexivity.
Qed.

Lemma C2_new_entry_first_among_ties_witness :
  nan_free [ent "C" 500 "T3"; ent "A" 500 "T1"; ent "B" 400 "T2"] /\
  exists l1 l2,
    update (ent "C" 500 "T3") [ent "A" 500 "T1"; ent "B" 400 "T2"] =
      firstn 10 (l1 ++ ent "C" 500 "T3" :: l2) /\
    Permutation (l1 ++ l2) [ent "A" 500 "T1"; ent "B" 400 "T2"] /\
    Forall (fun y => flt (score (ent "C" 500 "T3")) (score y) = true) l1.
Proof.
  split; [repeat constructor|].
  apply (proj1 C2_new_entry_first_among_ties); repeat constructor.
Defined.

(** C3. A POST to /submit with a missing, empty or over-20-character name,
    or with a score that is missing, does not parse, or rounds to a value
    [<= 0] or [> 100000], gets 400 "Bad request" and leaves the store as it
    was (no upload). This holds for every float parser. *)
Theorem C3_invalid_submission_rejected (rf : text -> option pyfloat) (now : text)
      (req : request) (st : store) :
  path req = "/submit"%string -> method req = "POST"%string ->
  (lookup_arg "name" (args req) = None \/
   (exists nm, lookup_arg "name" (args req) = Some nm /\
               (List.length nm = 0 \/ 20 < List.length nm)%nat) \/
   lookup_arg "score" (args req) = None \/
   (exists sc, lookup_arg "score" (args req) = Some sc /\
               (rf sc = None \/
                exists f, rf sc = Some f /\ (fle f (Fin 0) = true \/ flt (Fin 1000000) f = true)))) ->
  main rf now req st = (bad_request, st).
Proof.
  intros Hp Hm H. apply main_submit_invalid; auto.
  unfold validate.
  destruct (lookup_arg "name" (args req)) as [nm|] eqn:En; [|reflexivity].
  destruct ((List.length nm =? 0)%nat || (20 <? List.length nm)%nat) eqn:El; [reflexivity|].
  apply orb_false_elim in El as [El1 El2].
  apply Nat.eqb_neq in El1. apply Nat.ltb_ge in El2.
  destruct (lookup_arg "score" (args req)) as [sc|] eqn:Es; [|reflexivity].
  destruct H as [H | [(nm' & H1 & H2) | [H | (sc' & H1 & H2)]]]; try discriminate.
  - inversion H1; subst. lia.
  - inversion H1; subst.
    destruct H2 as [-> | (f & Hf & Hc)]; [reflexivity|].
    rewrite Hf. destruct Hc as [-> | ->]; [reflexivity|].
    rewrite orb_true_r; reflexivity.
Qed.

Lemma C3_invalid_submission_rejected_witness :
  main round_float1_lit (txt "T") (submit_req "" "50") (store_of [] 0) = (bad_request, store_of [] 0).
Proof.
  apply C3_invalid_submission_rejected; [reflexivity | reflexivity |].
  right; left. exists []. split; [reflexivity | left; reflexivity].
Defined.

(** C4 (code_bug). Scores 0, -5 and 100000.1 are rejected and 100000 is
    accepted. [nan] is accepted as well, although it is not in (0, 100000]:
    both comparisons of the guard are false for NaN. *)
Theorem C4_score_bounds_at_inputs :
  main round_float1_lit (txt "T") (submit_req "A" "0") (store_of [] 0) = (bad_request, store_of [] 0) /\
  main round_float1_lit (txt "T") (submit_req "A" "-5") (store_of [] 0) = (bad_request, store_of [] 0) /\
  main round_float1_lit (txt "T") (submit_req "A" "100000.1") (store_of [] 0) = (bad_request, store_of [] 0) /\
  main round_float1_lit (txt "T") (submit_req "A" "100000") (store_of [] 0) =
    (Response (BList [ent "A" 1000000 "T"]) 200, store_of [ent "A" 1000000 "T"] 1) /\
  main round_float1_lit (txt "T") (submit_req "A" "nan") (store_of [] 0) =
    (Response (BList [mkEntry (txt "A") NaN (txt "T")]) 200, store_of [mkEntry (txt "A") NaN (txt "T")] 1).
Proof. vm_compute. repeat split; reflexivity. Qed.

(** C5 (code_bug). A valid submission whose stored list reads and
    decodes, on a writable store, returns 200 with the first ten entries
    of a list [s], and the same list replaces the blob. [s] is a
    permutation of the new entry followed by the prior entries. Without
    NaN, [s] is sorted by non-increasing score and entries with the same
    score keep the order they had in [new :: prior].

    With NaN the sort is not stable on score. NaN passes the range check
    (C4), and [<] on keys with NaN is not a preorder, so CPython's sort
    can move entries of equal score past each other. The accepted
    submissions A 20, B 20, C nan, D 5, E nan, F 30 leave the list
    [F 30, E nan, D 5, C nan, B 20, A 20]. The submission G 10 then
    returns and stores [F 30, A 20, G 10, E nan, D 5, C nan, B 20]: the
    two entries of score 20 come out as A, B, while in [new :: prior] they
    were B, A. *)
Theorem C5_nan_breaks_stability :
  (forall (rf : text -> option pyfloat) (now : text) (req : request) (st : store)
          (nm : text) (sco : pyfloat) (raw : text) (data : leaderboard),
     path req = "/submit"%string -> method req = "POST"%string ->
     validate rf req = Some (nm, sco) -> blob st = Some raw -> Json.loads raw = Some data ->
     writable st = true ->
     exists s,
       main rf now req st =
         (Response (BList (firstn 10 s)) 200,
          mkStore (Some (Json.dumps (firstn 10 s))) true (S (uploads st))) /\
       Permutation s (mkEntry nm sco now :: data) /\
       (nan_free (mkEntry nm sco now :: data) ->
        nonincreasing s = true /\
        forall f, with_score f s = with_score f (mkEntry nm sco now :: data))) /\
  main_seq round_float1_lit
    [(txt "T1", submit_req "A" "20"); (txt "T2", submit_req "B" "20");
     (txt "T3", submit_req "C" "nan"); (txt "T4", submit_req "D" "5");
     (txt "T5", submit_req "E" "nan"); (txt "T6", submit_req "F" "30")] (store_of [] 0) =
    ([Response (BList [ent "A" 200 "T1"]) 200;
      Response (BList [ent "B" 200 "T2"; ent "A" 200 "T1"]) 200;
      Response (BList [mkEntry (txt "C") NaN (txt "T3"); ent "B" 200 "T2"; ent "A" 200 "T1"]) 200;
      Response (BList [ent "D" 50 "T4"; mkEntry (txt "C") NaN (txt "T3"); ent "B" 200 "T2";
                       ent "A" 200 "T1"]) 200;
      Response (BList [mkEntry (txt "E") NaN (txt "T5"); ent "D" 50 "T4";
                       mkEntry (txt "C") NaN (txt "T3"); ent "B" 200 "T2"; ent "A" 200 "T1"]) 200;
      Response (BList [ent "F" 300 "T6"; mkEntry (txt "E") NaN (txt "T5"); ent "D" 50 "T4";
                       mkEntry (txt "C") NaN (txt "T3"); ent "B" 200 "T2"; ent "A" 200 "T1"]) 200],
     store_of [ent "F" 300 "T6"; mkEntry (txt "E") NaN (txt "T5"); ent "D" 50 "T4";
               mkEntry (txt "C") NaN (txt "T3"); ent "B" 200 "T2"; ent "A" 200 "T1"] 6) /\
  main round_float1_lit (txt "T7") (submit_req "G" "10")
       (store_of [ent "F" 300 "T6"; mkEntry (txt "E") NaN (txt "T5"); ent "D" 50 "T4";
                  mkEntry (txt "C") NaN (txt "T3"); ent "B" 200 "T2"; ent "A" 200 "T1"] 6) =
    (Response (BList [ent "F" 300 "T6"; ent "A" 200 "T1"; ent "G" 100 "T7";
                      mkEntry (txt "E") NaN (txt "T5"); ent "D" 50 "T4";
                      mkEntry (txt "C") NaN (txt "T3"); ent "B" 200 "T2"]) 200,
     store_of [ent "F" 300 "T6"; ent "A" 200 "T1"; ent "G" 100 "T7";
               mkEntry (txt "E") NaN (txt "T5"); ent "D" 50 "T4";
               mkEntry (txt "C") NaN (txt "T3"); ent "B" 200 "T2"] 7) /\
  with_score (Fin 200)
    [ent "G" 100 "T7"; ent "F" 300 "T6"; mkEntry (txt "E") NaN (txt "T5"); ent "D" 50 "T4";
     mkEntry (txt "C") NaN (txt "T3"); ent "B" 200 "T2"; ent "A" 200 "T1"] =
    [ent "B" 200 "T2"; ent "A" 200 "T1"] /\
  with_score (Fin 200)
    [ent "F" 300 "T6"; ent "A" 200 "T1"; ent "G" 100 "T7";
     mkEntry (txt "E") NaN (txt "T5"); ent "D" 50 "T4";
     mkEntry (txt "C") NaN (txt "T3"); ent "B" 200 "T2"] =
    [ent "A" 200 "T1"; ent "B" 200 "T2"].
Proof.
  split.
  - intros rf now req st nm sco raw data Hp Hm Hv Hb Hl Hw.
    exists (py_sorted (mkEntry nm sco now :: data)).
    rewrite (main_submit_ok rf now req st nm sco raw data Hp Hm Hv Hb Hl Hw).
    split; [reflexivity|]. split; [apply py_sorted_perm|].
    intros Hf. rewrite py_sorted_nan_free by exact Hf. split.
    + apply sorted_by_key_nonincreasing, Hf.
    + intros f; apply with_score_sorted.
  - vm_compute. repeat split; reflexivity.
Qed.

Lemma C5_nan_breaks_stability_witness :
  exists s,
    main round_float1_lit (txt "T") (submit_req "C" "50") (store_of [ent "A" 600 "T0"] 0) =
      (Response (BList (firstn 10 s)) 200,
       mkStore (Some (Json.dumps (firstn 10 s))) true 1) /\
    Permutation s [ent "C" 500 "T"; ent "A" 600 "T0"] /\
    (nan_free [ent "C" 500 "T"; ent "A" 600 "T0"] ->
     nonincreasing s = true /\
     forall f, with_score f s = with_score f [ent "C" 500 "T"; ent "A" 600 "T0"]).
Proof.
  apply (proj1 C5_nan_breaks_stability round_float1_lit (txt "T") (submit_req "C" "50")
           (store_of [ent "A" 600 "T0"] 0) (txt "C") (Fin 500)
           (Json.dumps [ent "A" 600 "T0"]) [ent "A" 600 "T0"]);
    vm_compute; reflexivity.
Defined.

(** C6. A request whose path is not "/" and that is not a POST to
    "/submit" gets 400 "Bad request", and the store is unchanged. *)
Theorem C6_unrouted_bad_request (rf : text -> option pyfloat) (now : text) (req : request) (st : store) :
  path req <> "/"%string -> ~ (path req = "/submit"%string /\ method req = "POST"%string) ->
  main rf now req st = (bad_request, st).
Proof.
  intros H1 H2. unfold main.
  destruct (String.eqb_spec (path req) "/") as [E|_]; [contradiction|].
  destruct (String.eqb_spec (path req) "/submit") as [E1|_]; [|reflexivity].
  destruct (String.eqb_spec (method req) "POST") as [E2|_]; [|reflexivity].
  exfalso; auto.
Qed.

Lemma C6_unrouted_bad_request_witness :
  main round_float1_lit (txt "T") (mkRequest "/foo" "GET" [] []) (store_of [] 0) =
    (bad_request, store_of [] 0) /\
  main round_float1_lit (txt "T") (mkRequest "/submit" "GET" (args (submit_req "A" "50")) [])
       (store_of [] 0) = (bad_request, store_of [] 0).
Proof.
  split; apply C6_unrouted_bad_request; simpl; try discriminate; intros [_ H]; discriminate.
Defined.

(** C7, counterexample: a POST to /submit whose [name] and [score] are in
    the form-encoded body gets 400 and no upload. The same parameters in
    the query string are accepted with status 200. *)
Lemma C7_form_params_rejected :
  main round_float1_lit (txt "T") (mkRequest "/submit" "POST" [] (args (submit_req "A" "50")))
       (store_of [] 0) = (bad_request, store_of [] 0) /\
  main round_float1_lit (txt "T") (submit_req "A" "50") (store_of [] 0) =
    (Response (BList [ent "A" 500 "T"]) 200, store_of [ent "A" 500 "T"] 1).
Proof. vm_compute. split; reflexivity. Qed.

(** C7, amended. The handler reads only [request.args], the query
    string. The form-encoded body never changes the outcome or the store.
    So a submission that is only form-encoded is handled like one
    without parameters, and by C3 it gets 400 with no upload. *)
Theorem C7_only_query_args (rf : text -> option pyfloat) (now : text) (req : request) (st : store)
      (f : list (string * text)) :
  main rf now req st = main rf now (mkRequest (path req) (method req) (args req) f) st /\
  (path req = "/submit"%string -> method req = "POST"%string ->
   lookup_arg "name" (args req) = None -> main rf now req st = (bad_request, st)).
Proof.
  split; [reflexivity|].
  intros Hp Hm Hn. apply main_submit_invalid; auto.
  unfold validate; rewrite Hn; reflexivity.
Qed.

Lemma C7_only_query_args_witness :
  main round_float1_lit (txt "T") (mkRequest "/submit" "POST" [] (args (submit_req "A" "50")))
       (store_of [] 0) = (bad_request, store_of [] 0).
Proof.
  apply (proj2 (C7_only_query_args round_float1_lit (txt "T")
                  (mkRequest "/submit" "POST" [] (args (submit_req "A" "50")))
                  (store_of [] 0) [])); reflexivity.
Defined.

(** C9. Storage failures are not turned into a 400. When the blob cannot
    be read, "/" raises. When it cannot be read or written, a valid
    submission raises, and it raises [StorageError] if the blob decodes.
    No state is changed. With a failing store, a 400 "Bad request"
    comes only from routing or from the validation of /submit, never
    from "/". *)
Theorem C9_storage_errors_propagate (rf : text -> option pyfloat) (now : text) (req : request)
      (st : store) :
  (blob st = None \/ writable st = false) ->
  (path req = "/"%string -> blob st = None -> main rf now req st = (Raised StorageError, st)) /\
  (path req = "/submit"%string -> method req = "POST"%string -> validate rf req <> None ->
   exists e, main rf now req st = (Raised e, st) /\
             (forall raw data, blob st = Some raw -> Json.loads raw = Some data -> e = StorageError)) /\
  (fst (main rf now req st) = bad_request ->
   path req <> "/"%string /\
   (path req = "/submit"%string -> method req = "POST"%string -> validate rf req = None)).
Proof.
  intros Hst. unfold main, submit, list_highscores, read_storage, write_storage.
  split; [|split].
  - intros Hp Hb. rewrite Hp, Hb. reflexivity.
  - intros Hp Hm Hv. rewrite Hp, Hm. simpl.
    destruct (validate rf req) as [[nm sco]|]; [|contradiction].
    destruct (blob st) as [raw|] eqn:Hb.
    + destruct Hst as [Hst|Hst]; [discriminate|].
      destruct (Json.loads raw) as [data|] eqn:Hl.
      * rewrite Hst. exists StorageError; split; auto.
      * exists JSONDecodeError; split; [reflexivity|].
        intros raw' data' E E'; inversion E; subst; congruence.
    + exists StorageError; split; [reflexivity|]. intros raw' data' E; discriminate.
  - intros Hbad. split.
    + intros Hp. rewrite Hp in Hbad. simpl in Hbad.
      destruct (blob st); discriminate.
    + intros Hp Hm. rewrite Hp, Hm in Hbad. simpl in Hbad.
      destruct (validate rf req) as [[nm sco]|]; [|reflexivity].
      destruct (blob st); [|discriminate].
      destruct (Json.loads t); [|discriminate].
      destruct (writable st); discriminate.
Qed.

Lemma C9_storage_errors_propagate_witness :
  main round_float1_lit (txt "T") (mkRequest "/" "GET" [] []) (mkStore None true 0) =
    (Raised StorageError, mkStore None true 0).
Proof.
  apply (proj1 (C9_storage_errors_propagate round_float1_lit (txt "T") (mkRequest "/" "GET" [] [])
                  (mkStore None true 0) (or_introl eq_refl))); reflexivity.
Defined.

(** C10, counterexample: ten prior entries score 100 and a submission
    scores 50. The result is the prior list, and the new entry is not in
    it. *)
Lemma C10_new_entry_dropped :
  main round_float1_lit (txt "T") (submit_req "Z" "50") (store_of (repeat (ent "P" 1000 "T0") 10) 0) =
    (Response (BList (repeat (ent "P" 1000 "T0") 10)) 200,
     store_of (repeat (ent "P" 1000 "T0") 10) 1) /\
  ~ In (ent "Z" 500 "T") (repeat (ent "P" 1000 "T0") 10).
Proof.
  split; [vm_compute; reflexivity|].
  intros H. apply repeat_spec in H. discriminate.
Qed.

(** C10, amended. For a valid submission against [n] prior entries, the
    result has exactly [min (n + 1) 10] entries. They are taken,
    unchanged, from the new entry and the prior entries: the result is a
    rearrangement of a sublist of [new :: prior]. When [n < 10] the result
    holds the new entry and all prior entries, so a name already present
    gets a second entry. *)
Theorem C10_result_from_new_and_prior (rf : text -> option pyfloat) (now : text) (req : request)
      (st : store) (nm : text) (sco : pyfloat) (raw : text) (data : leaderboard) :
  path req = "/submit"%string -> method req = "POST"%string ->
  validate rf req = Some (nm, sco) -> blob st = Some raw -> Json.loads raw = Some data ->
  writable st = true ->
  exists r,
    main rf now req st = (Response (BList r) 200, mkStore (Some (Json.dumps r)) true (S (uploads st))) /\
    List.length r = Nat.min (List.length data + 1) 10 /\
    (exists l', subseq l' (mkEntry nm sco now :: data) /\ Permutation r l') /\
    ((List.length data < 10)%nat -> Permutation r (mkEntry nm sco now :: data)).
Proof.
  intros Hp Hm Hv Hb Hl Hw.
  exists (update (mkEntry nm sco now) data).
  rewrite (main_submit_ok rf now req st nm sco raw data Hp Hm Hv Hb Hl Hw).
  pose proof (py_sorted_perm (mkEntry nm sco now :: data)) as P.
  unfold update. repeat split.
  - rewrite length_firstn, (Permutation_length P); simpl; rewrite Nat.min_comm, Nat.add_1_r; reflexivity.
  - apply (subseq_perm _ _ P), subseq_firstn.
  - intros Hn. rewrite firstn_all2; [exact P|].
    rewrite (Permutation_length P); simpl; lia.
Qed.

Lemma C10_result_from_new_and_prior_witness :
  exists r,
    main round_float1_lit (txt "T") (submit_req "A" "50") (store_of [ent "A" 600 "T0"] 0) =
      (Response (BList r) 200, mkStore (Some (Json.dumps r)) true 1) /\
    List.length r = Nat.min (1 + 1) 10 /\
    (exists l', subseq l' [ent "A" 500 "T"; ent "A" 600 "T0"] /\ Permutation r l') /\
    ((1 < 10)%nat -> Permutation r [ent "A" 500 "T"; ent "A" 600 "T0"]).
Proof.
  apply (C10_result_from_new_and_prior round_float1_lit (txt "T") (submit_req "A" "50")
           (store_of [ent "A" 600 "T0"] 0) (txt "A") (Fin 500)
           (Json.dumps [ent "A" 600 "T0"]) [ent "A" 600 "T0"]);
    vm_compute; reflexivity.
Defined.


(** C8. The persisted text gives back the leaderboard it was written
    from: [json.loads(json.dumps(data))] has the same entries, with the
    same names, scores and timestamps, in the same order. Names and
    timestamps hold Unicode scalar values: code points below 0x110000 that
    are not surrogates. Every string decoded from UTF-8 request
    parameters or from the persisted JSON is of this kind. *)
Theorem C8_json_roundtrip (l : leaderboard) :
  forallb Json.entry_scalar l = true -> Json.loads (Json.dumps l) = Some l.
Proof. apply JsonFacts.loads_dumps. Qed.

Lemma C8_json_roundtrip_witness :
  forallb Json.entry_scalar
    [ent "A" 500 "2024-01-01T00:00:00";
     mkEntry [233; 34; 92; 10; 127; 128512] NaN [];
     mkEntry [] (Fin (-35)) (txt "t")] = true /\
  Json.loads (Json.dumps
    [ent "A" 500 "2024-01-01T00:00:00";
     mkEntry [233; 34; 92; 10; 127; 128512] NaN [];
     mkEntry [] (Fin (-35)) (txt "t")]) =
  Some [ent "A" 500 "2024-01-01T00:00:00";
        mkEntry [233; 34; 92; 10; 127; 128512] NaN [];
        mkEntry [] (Fin (-35)) (txt "t")].
Proof.
  split; [vm_compute; reflexivity|].
  apply C8_json_roundtrip. vm_compute. reflexivity.
Defined.

(** A list body only comes from a successful [submit], which wrote it. *)
Lemma main_list_response (rf : text -> option pyfloat) (now : text) (req : request) (st : store)
      (r : leaderboard) (s : Z) (st' : store) :
  main rf now req st = (Response (BList r) s, st') ->
  s = 200%Z /\ (List.length r <= 10)%nat /\ blob st' = Some (Json.dumps r) /\
  uploads st' = S (uploads st).
Proof.
  intros H. destruct (main_cases rf now req st) as [[_ N] | (nm & sco & raw & data & _ & _ & _ & _ & _ & _ & E)].
  - exfalso. apply (N r s). rewrite H. reflexivity.
  - rewrite E in H. injection H as Er Es Est. subst. repeat split; apply update_length.
Qed.

(** X1. The only request that changes the store is a POST to "/submit"
    that succeeds: it makes exactly one upload, of the JSON text of the
    list it returns. Every other request, including every failing one,
    leaves the blob and the upload count as they were. *)
Theorem X1_store_changed_only_by_submit (rf : text -> option pyfloat) (now : text)
      (req : request) (st : store) :
  snd (main rf now req st) = st \/
  (path req = "/submit"%string /\ method req = "POST"%string /\
   exists r, main rf now req st =
     (Response (BList r) 200, mkStore (Some (Json.dumps r)) true (S (uploads st)))).
Proof.
  destruct (main_cases rf now req st) as [[E _] | (nm & sco & raw & data & Hp & Hm & _ & _ & _ & _ & E)].
  - left; exact E.
  - right; split; [exact Hp | split; [exact Hm | eexists; exact E]].
Qed.

(** X2. Whenever a request is answered with a list, the status is 200,
    the list has at most ten entries, and it is exactly what the store
    now holds as JSON, written by one upload. This holds for every score,
    NaN included. *)
Theorem X2_list_response (rf : text -> option pyfloat) (now : text) (req : request) (st : store)
      (r : leaderboard) (s : Z) (st' : store) :
  main rf now req st = (Response (BList r) s, st') ->
  s = 200%Z /\ (List.length r <= 10)%nat /\ blob st' = Some (Json.dumps r) /\
  uploads st' = S (uploads st).
Proof. apply main_list_response. Qed.

Lemma X2_list_response_witness :
  main round_float1_lit (txt "T") (submit_req "C" "50") (store_of [ent "A" 600 "T0"] 0) =
    (Response (BList [ent "A" 600 "T0"; ent "C" 500 "T"]) 200,
     store_of [ent "A" 600 "T0"; ent "C" 500 "T"] 1) /\
  (200%Z = 200%Z /\ (List.length [ent "A" 600 "T0"; ent "C" 500 "T"] <= 10)%nat /\
   blob (store_of [ent "A" 600 "T0"; ent "C" 500 "T"] 1) =
     Some (Json.dumps [ent "A" 600 "T0"; ent "C" 500 "T"]) /\
   uploads (store_of [ent "A" 600 "T0"; ent "C" 500 "T"] 1) =
     S (uploads (store_of [ent "A" 600 "T0"] 0))).
Proof.
  assert (E : main round_float1_lit (txt "T") (submit_req "C" "50") (store_of [ent "A" 600 "T0"] 0) =
    (Response (BList [ent "A" 600 "T0"; ent "C" 500 "T"]) 200,
     store_of [ent "A" 600 "T0"; ent "C" 500 "T"] 1)) by (vm_compute; reflexivity).
  split; [exact E | exact (X2_list_response _ _ _ _ _ _ _ E)].
Defined.

(** X3. After a request answered with a list, a request to "/" (any
    method) returns the JSON text of that same list with 200 and changes
    nothing; when the names and timestamps hold Unicode scalar values,
    that text decodes back to the list. *)
Theorem X3_list_after_submit (rf : text -> option pyfloat) (now now2 : text)
      (req req2 : request) (st st' : store) (r : leaderboard) :
  main rf now req st = (Response (BList r) 200, st') -> path req2 = "/"%string ->
  main rf now2 req2 st' = (Response (BText (Json.dumps r)) 200, st') /\
  (forallb Json.entry_scalar r = true -> Json.loads (Json.dumps r) = Some r).
Proof.
  intros H Hp. destruct (main_list_response rf now req st r 200 st' H) as (_ & _ & Hb & _).
  split.
  - unfold main, list_highscores, read_storage. rewrite Hp, Hb. reflexivity.
  - apply JsonFacts.loads_dumps.
Qed.

Lemma X3_list_after_submit_witness :
  main round_float1_lit (txt "T") (submit_req "C" "50") (store_of [ent "A" 600 "T0"] 0) =
    (Response (BList [ent "A" 600 "T0"; ent "C" 500 "T"]) 200,
     store_of [ent "A" 600 "T0"; ent "C" 500 "T"] 1) /\
  path (mkRequest "/" "GET" [] []) = "/"%string /\
  (main round_float1_lit (txt "T2") (mkRequest "/" "GET" [] [])
     (store_of [ent "A" 600 "T0"; ent "C" 500 "T"] 1) =
     (Response (BText (Json.dumps [ent "A" 600 "T0"; ent "C" 500 "T"])) 200,
      store_of [ent "A" 600 "T0"; ent "C" 500 "T"] 1) /\
   (forallb Json.entry_scalar [ent "A" 600 "T0"; ent "C" 500 "T"] = true ->
    Json.loads (Json.dumps [ent "A" 600 "T0"; ent "C" 500 "T"]) =
      Some [ent "A" 600 "T0"; ent "C" 500 "T"])).
Proof.
  assert (E : main round_float1_lit (txt "T") (submit_req "C" "50") (store_of [ent "A" 600 "T0"] 0) =
    (Response (BList [ent "A" 600 "T0"; ent "C" 500 "T"]) 200,
     store_of [ent "A" 600 "T0"; ent "C" 500 "T"] 1)) by (vm_compute; reflexivity).
  split; [exact E | split; [reflexivity|]].
  exact (X3_list_after_submit round_float1_lit (txt "T") (txt "T2") (submit_req "C" "50")
           (mkRequest "/" "GET" [] []) _ _ _ E eq_refl).
Defined.

(** X4. A request that passes validation has a [name] argument (its
    first occurrence is used) of 1 to 20 code points and a [score]
    argument that parses. The accepted score is either a finite value in
    (0, 100000], or NaN: the infinities are always rejected. *)
Theorem X4_validate_accepted (rf : text -> option pyfloat) (req : request) (nm : text) (f : pyfloat) :
  validate rf req = Some (nm, f) ->
  lookup_arg "name" (args req) = Some nm /\ (1 <= List.length nm <= 20)%nat /\
  (exists sc, lookup_arg "score" (args req) = Some sc /\ rf sc = Some f) /\
  ((exists k, f = Fin k /\ (0 < k <= 1000000)%Z) \/ f = NaN).
Proof.
  unfold validate. intros H.
  destruct (lookup_arg "name" (args req)) as [n|] eqn:Hn; [|discriminate].
  destruct ((List.length n =? 0)%nat || (20 <? List.length n)%nat) eqn:Hlen; [discriminate|].
  destruct (lookup_arg "score" (args req)) as [sc|] eqn:Hs; [|discriminate].
  destruct (rf sc) as [g|] eqn:Hg; [|discriminate].
  destruct (fle g (Fin 0) || flt (Fin 1000000) g) eqn:Hr; [discriminate|].
  injection H as <- <-.
  apply orb_false_iff in Hlen as [H0 H20].
  apply Nat.eqb_neq in H0. apply Nat.ltb_ge in H20.
  split; [reflexivity|]. split; [lia|]. split; [exists sc; auto|].
  destruct g; cbv [fle flt feq] in Hr; cbv beta iota in Hr; try discriminate.
  - left. exists k.
    destruct (Z.ltb_spec k 0), (Z.eqb_spec k 0), (Z.ltb_spec 1000000 k); simpl in Hr;
      try discriminate; split; [reflexivity | lia].
  - right; reflexivity.
Qed.

Lemma X4_validate_accepted_witness :
  validate round_float1_lit (submit_req "A" "nan") = Some (txt "A", NaN) /\
  (lookup_arg "name" (args (submit_req "A" "nan")) = Some (txt "A") /\
   (1 <= List.length (txt "A") <= 20)%nat /\
   (exists sc, lookup_arg "score" (args (submit_req "A" "nan")) = Some sc /\
               round_float1_lit sc = Some NaN) /\
   ((exists k, NaN = Fin k /\ (0 < k <= 1000000)%Z) \/ NaN = NaN)).
Proof.
  assert (E : validate round_float1_lit (submit_req "A" "nan") = Some (txt "A", NaN))
    by (vm_compute; reflexivity).
  split; [exact E | exact (X4_validate_accepted _ _ _ _ E)].
Defined.

(** The JSON text [raw] is not an array when, after leading whitespace,
    it is empty or starts with a character other than [[]. *)
Lemma loads_not_array (raw : text) :
  (forall c r, Json.skip_ws raw = c :: r -> c <> 91) -> Json.loads raw = None.
Proof.
  intros H. unfold Json.loads. destruct (Json.skip_ws raw) as [|c r] eqn:E; [reflexivity|].
  specialize (H c r eq_refl). apply N.eqb_neq in H. rewrite H. reflexivity.
Qed.

(** X5. A blob whose JSON text is not an array (after leading whitespace
    it is empty or does not start with [[]) is never repaired. Python's
    [json.loads] raises on it, or returns a value that is not a list,
    whose [insert] raises. So a valid submission raises without writing,
    and no request at all changes the store. *)
Theorem X5_blob_not_array (rf : text -> option pyfloat) (now : text) (req : request)
      (st : store) (raw : text) :
  path req = "/submit"%string -> method req = "POST"%string -> validate rf req <> None ->
  blob st = Some raw -> (forall c r, Json.skip_ws raw = c :: r -> c <> 91) ->
  (exists ex, main rf now req st = (Raised ex, st)) /\
  (forall now2 req2, snd (main rf now2 req2 st) = st).
Proof.
  intros Hp Hm Hv Hb Hr. pose proof (loads_not_array raw Hr) as Hl. split.
  - exists JSONDecodeError. unfold main, submit, read_storage. rewrite Hp, Hm. simpl.
    destruct (validate rf req) as [[nm sco]|]; [|contradiction].
    rewrite Hb, Hl. reflexivity.
  - intros now2 req2.
    destruct (main_cases rf now2 req2 st) as [[E _] | (nm & sco & raw' & data & _ & _ & _ & Hb' & Hl' & _)];
      [exact E|].
    rewrite Hb in Hb'. injection Hb' as <-. rewrite Hl in Hl'. discriminate.
Qed.

Lemma X5_blob_not_array_witness :
  (forall c r, Json.skip_ws (txt " {}") = c :: r -> c <> 91) /\
  ((exists ex, main round_float1_lit (txt "T") (submit_req "A" "50") (mkStore (Some (txt " {}")) true 0) =
                 (Raised ex, mkStore (Some (txt " {}")) true 0)) /\
   (forall now2 req2, snd (main round_float1_lit now2 req2 (mkStore (Some (txt " {}")) true 0)) =
                      mkStore (Some (txt " {}")) true 0)).
Proof.
  assert (H : forall c r, Json.skip_ws (txt " {}") = c :: r -> c <> 91)
    by (vm_compute; intros c r E; injection E as <- _; discriminate).
  split; [exact H|].
  apply (X5_blob_not_array round_float1_lit (txt "T") (submit_req "A" "50")
           (mkStore (Some (txt " {}")) true 0) (txt " {}")); try reflexivity; [|exact H].
  vm_compute; discriminate.
Defined.

(** ** The encoder writes printable ASCII only *)

Lemma hex_digit_printable (d : N) : d < 16 -> printable (Json.hex_digit d) = true.
Proof.
  intros H; unfold printable, Json.hex_digit.
  destruct (N.ltb_spec d 10); apply andb_true_intro; split; apply N.leb_le; lia.
Qed.

Lemma hex4_printable (v : N) : v < 65536 -> forallb printable (Json.hex4 v) = true.
Proof.
  intros H. unfold Json.hex4. cbn [forallb].
  assert (v / 4096 < 16) by (apply N.Div0.div_lt_upper_bound; lia).
  rewrite !hex_digit_printable by (assumption || (apply N.mod_lt; discriminate)).
  reflexivity.
Qed.

Lemma enc_char_printable (c : N) : code_point c = true -> forallb printable (Json.enc_char c) = true.
Proof.
  unfold code_point; intros H; apply N.ltb_lt in H. unfold Json.enc_char.
  destruct (c =? 92); [reflexivity|].
  destruct (c =? 34); [reflexivity|].
  destruct ((32 <=? c) && (c <=? 126)) eqn:E;
    [cbn [forallb]; unfold printable; rewrite E; reflexivity|].
  destruct (c =? 8); [reflexivity|].
  destruct (c =? 12); [reflexivity|].
  destruct (c =? 10); [reflexivity|].
  destruct (c =? 13); [reflexivity|].
  destruct (c =? 9); [reflexivity|].
  destruct (N.ltb_spec c 65536).
  - cbn [forallb]. rewrite hex4_printable by assumption. reflexivity.
  - rewrite forallb_app. cbn [forallb].
    assert ((c - 65536) / 1024 < 1024) by (apply N.Div0.div_lt_upper_bound; lia).
    pose proof (N.mod_lt (c - 65536) 1024 ltac:(discriminate)).
    rewrite !hex4_printable by lia. reflexivity.
Qed.

Lemma enc_string_printable (t : text) :
  forallb code_point t = true -> forallb printable (Json.enc_string t) = true.
Proof.
  intros H. unfold Json.enc_string. cbn [forallb]. rewrite forallb_app.
  enough (forallb printable (flat_map Json.enc_char t) = true) as -> by reflexivity.
  induction t as [|c t IH]; [reflexivity|].
  simpl in H. apply andb_prop in H as [Hc Ht].
  cbn [flat_map]. rewrite forallb_app, enc_char_printable, IH by assumption. reflexivity.
Qed.

Lemma uint_chars_printable (u : uint) : forallb printable (Json.uint_chars u) = true.
Proof. induction u; cbn [Json.uint_chars forallb]; try rewrite IHu; reflexivity. Qed.

Lemma enc_float_printable (f : pyfloat) : forallb printable (Json.enc_float f) = true.
Proof.
  destruct f; try reflexivity. unfold Json.enc_float, Json.dec.
  rewrite !forallb_app. cbn [forallb]. rewrite !uint_chars_printable.
  destruct (k <? 0)%Z; reflexivity.
Qed.

Lemma enc_entry_printable (e : entry) :
  entry_code_points e = true -> forallb printable (Json.enc_entry e) = true.
Proof.
  unfold entry_code_points; intros H; apply andb_prop in H as [H1 H2].
  unfold Json.enc_entry. rewrite !forallb_app, enc_float_printable.
  rewrite (enc_string_printable (name e) H1), (enc_string_printable (timestamp e) H2).
  vm_compute. reflexivity.
Qed.

Lemma enc_items_printable (l : leaderboard) :
  forallb entry_code_points l = true -> forallb printable (Json.enc_items l) = true.
Proof.
  induction l as [|e l IH]; intros H; [reflexivity|].
  simpl in H. apply andb_prop in H as [He Hl].
  cbn [Json.enc_items]. rewrite !forallb_app, enc_entry_printable, IH by assumption.
  reflexivity.
Qed.

(** X6. [json.dumps] with [ensure_ascii] writes the leaderboard as
    printable ASCII only (space to tilde): every other code point of a
    name or timestamp, control characters and non-ASCII letters alike, is
    escaped, so the blob holds no raw newline or non-ASCII byte. *)
Theorem X6_dumps_printable_ascii (l : leaderboard) :
  forallb entry_code_points l = true -> forallb printable (Json.dumps l) = true.
Proof.
  destruct l as [|e l]; intros H; [reflexivity|].
  simpl in H. apply andb_prop in H as [He Hl].
  unfold Json.dumps. rewrite !forallb_app, enc_entry_printable, enc_items_printable by assumption.
  reflexivity.
Qed.

Lemma X6_dumps_printable_ascii_witness :
  forallb entry_code_points [mkEntry [233; 10; 0; 55296; 128512] NaN (txt "t"); ent "B" 5 ""] = true /\
  forallb printable (Json.dumps [mkEntry [233; 10; 0; 55296; 128512] NaN (txt "t"); ent "B" 5 ""]) = true.
Proof.
  split; [vm_compute; reflexivity|].
  apply X6_dumps_printable_ascii. vm_compute. reflexivity.
Defined.

(** ** Submissions on a sorted leaderboard *)

(** X7. When the stored list is already sorted by non-increasing score and
    no score is NaN, a submission inserts the new entry in place: the prior
    entries keep their order, the new entry goes after those with a
    strictly higher score and before all others (ties included), and the
    result is cut to its first ten. *)
Theorem X7_sorted_board_insert (e : entry) (old : leaderboard) :
  nan_free (e :: old) -> nonincreasing old = true ->
  exists l1 l2, old = l1 ++ l2 /\ update e old = firstn 10 (l1 ++ e :: l2) /\
    Forall (fun y => flt (score e) (score y) = true) l1 /\
    Forall (fun y => fle (score y) (score e) = true) l2.
Proof. apply update_sorted_split. Qed.

Lemma X7_sorted_board_insert_witness :
  nan_free [ent "C" 500 "T"; ent "A" 600 ""; ent "B" 500 ""; ent "D" 100 ""] /\
  nonincreasing [ent "A" 600 ""; ent "B" 500 ""; ent "D" 100 ""] = true /\
  exists l1 l2, [ent "A" 600 ""; ent "B" 500 ""; ent "D" 100 ""] = l1 ++ l2 /\
    update (ent "C" 500 "T") [ent "A" 600 ""; ent "B" 500 ""; ent "D" 100 ""] =
      firstn 10 (l1 ++ ent "C" 500 "T" :: l2) /\
    Forall (fun y => flt (score (ent "C" 500 "T")) (score y) = true) l1 /\
    Forall (fun y => fle (score y) (score (ent "C" 500 "T")) = true) l2.
Proof.
  assert (Hf : nan_free [ent "C" 500 "T"; ent "A" 600 ""; ent "B" 500 ""; ent "D" 100 ""])
    by (unfold nan_free; repeat constructor).
  assert (Hs : nonincreasing [ent "A" 600 ""; ent "B" 500 ""; ent "D" 100 ""] = true)
    by (vm_compute; reflexivity).
  split; [exact Hf | split; [exact Hs | exact (X7_sorted_board_insert _ _ Hf Hs)]].
Defined.

(** X8. On a sorted list without NaN, no rank of the top ten loses score
    through a submission: for every position [i < 10] holding an entry
    before, the list written back has an entry at [i] whose score is at
    least as high. *)
Theorem X8_rank_scores_never_drop (e : entry) (old : leaderboard) (i : nat) (y : entry) :
  nan_free (e :: old) -> nonincreasing old = true -> (i < 10)%nat -> nth_error old i = Some y ->
  exists x, nth_error (update e old) i = Some x /\ fle (score y) (score x) = true.
Proof.
  intros Hf Hs Hi Hy.
  assert (Hold : nan_free old) by (inversion Hf; assumption).
  assert (Hyn : is_nan (score y) = false).
  { unfold nan_free in Hold; rewrite Forall_forall in Hold. apply Hold. eapply nth_error_In; eauto. }
  destruct (update_sorted_split e old Hf Hs) as (l1 & l2 & Eo & Eu & F1 & F2).
  rewrite Eu, nth_error_firstn.
  replace (Nat.ltb i 10) with true by (symmetry; apply Nat.ltb_lt; exact Hi).
  rewrite Eo in Hy, Hs.
  destruct (Nat.lt_ge_cases i (List.length l1)) as [Hlt | Hge].
  - exists y. rewrite nth_error_app1 in Hy |- * by assumption.
    split; [exact Hy | apply fle_refl, Hyn].
  - rewrite nth_error_app2 in Hy |- * by assumption.
    destruct (i - List.length l1)%nat as [|j] eqn:Ej.
    + exists e; split; [reflexivity|].
      rewrite Forall_forall in F2. apply F2. eapply nth_error_In; eauto.
    + cbn [nth_error].
      destruct (nth_error l2 j) as [x|] eqn:Ex.
      * exists x; split; [reflexivity|].
        eapply nonincreasing_nth; [apply (nonincreasing_app_r l1), Hs | exact Ex | exact Hy].
      * exfalso. apply nth_error_None in Ex.
        assert (nth_error l2 (S j) = None) by (apply nth_error_None; lia).
        congruence.
Qed.

Lemma X8_rank_scores_never_drop_witness :
  nan_free [ent "C" 550 "T"; ent "A" 600 ""; ent "B" 500 ""; ent "D" 100 ""] /\
  nonincreasing [ent "A" 600 ""; ent "B" 500 ""; ent "D" 100 ""] = true /\ (1 < 10)%nat /\
  nth_error [ent "A" 600 ""; ent "B" 500 ""; ent "D" 100 ""] 1 = Some (ent "B" 500 "") /\
  exists x, nth_error (update (ent "C" 550 "T") [ent "A" 600 ""; ent "B" 500 ""; ent "D" 100 ""]) 1
              = Some x /\ fle (score (ent "B" 500 "")) (score x) = true.
Proof.
  assert (Hf : nan_free [ent "C" 550 "T"; ent "A" 600 ""; ent "B" 500 ""; ent "D" 100 ""])
    by (unfold nan_free; repeat constructor).
  assert (Hs : nonincreasing [ent "A" 600 ""; ent "B" 500 ""; ent "D" 100 ""] = true)
    by (vm_compute; reflexivity).
  split; [exact Hf | split; [exact Hs | split; [lia | split; [reflexivity|]]]].
  apply (X8_rank_scores_never_drop _ _ 1 _ Hf Hs); [lia | reflexivity].
Defined.

(** X9. The good shape of the persisted list is kept by every request:
    if the blob decodes to at most ten entries without NaN, sorted by
    non-increasing score, with names and timestamps of Unicode scalar
    values, it still does after any request, provided the request (if it
    passes validation) carries a non-NaN score and a name of scalar values,
    and the timestamp is made of scalar values. *)
Theorem X9_good_store_preserved (rf : text -> option pyfloat) (now : text) (req : request)
      (st : store) :
  good_store st = true -> forallb Json.scalar now = true ->
  (forall nm f, validate rf req = Some (nm, f) -> is_nan f = false /\ forallb Json.scalar nm = true) ->
  good_store (snd (main rf now req st)) = true.
Proof.
  intros Hg Hnow Hv.
  destruct (main_cases rf now req st) as [[E _] | (nm & sco & raw & data & _ & _ & Hval & Hb & Hl & _ & E)];
    [rewrite E; exact Hg|].
  rewrite E; cbn [snd]. destruct (Hv nm sco Hval) as [Hn Hnm].
  unfold good_store in Hg. rewrite Hb, Hl in Hg.
  apply andb_prop in Hg as [Hg Hsc]. apply andb_prop in Hg as [Hg Hnan].
  rewrite forallb_forall in Hsc, Hnan.
  assert (Hfree : nan_free (mkEntry nm sco now :: data)).
  { constructor; [exact Hn|]. unfold nan_free; rewrite Forall_forall; intros x Hx.
    apply negb_true_iff, Hnan, Hx. }
  destruct (update_bounded_sorted _ _ Hfree) as [Hr10 Hrs].
  pose proof (update_in (mkEntry nm sco now)) as Hin.
  remember (update (mkEntry nm sco now) data) as r eqn:Er.
  assert (Hrsc : forallb Json.entry_scalar r = true).
  { apply forallb_forall; intros x Hx. subst r. apply Hin in Hx as [<- | Hx].
    - unfold Json.entry_scalar; cbn [name timestamp]. rewrite Hnm, Hnow; reflexivity.
    - apply Hsc, Hx. }
  assert (Hrn : forallb (fun e => negb (is_nan (score e))) r = true).
  { apply forallb_forall; intros x Hx. subst r. apply Hin in Hx as [<- | Hx].
    - cbn [score]. rewrite Hn; reflexivity.
    - apply Hnan, Hx. }
  unfold good_store; cbn [blob]. rewrite JsonFacts.loads_dumps by exact Hrsc.
  apply Nat.leb_le in Hr10. rewrite Hr10, Hrs, Hrn, Hrsc. reflexivity.
Qed.

Lemma X9_good_store_preserved_witness :
  good_store (store_of [ent "A" 600 "T0"] 0) = true /\ forallb Json.scalar (txt "T") = true /\
  (forall nm f, validate round_float1_lit (submit_req "C" "50") = Some (nm, f) ->
                is_nan f = false /\ forallb Json.scalar nm = true) /\
  good_store (snd (main round_float1_lit (txt "T") (submit_req "C" "50") (store_of [ent "A" 600 "T0"] 0)))
    = true.
Proof.
  assert (Hg : good_store (store_of [ent "A" 600 "T0"] 0) = true) by (vm_compute; reflexivity).
  assert (Hnow : forallb Json.scalar (txt "T") = true) by (vm_compute; reflexivity).
  assert (Hv : forall nm f, validate round_float1_lit (submit_req "C" "50") = Some (nm, f) ->
                            is_nan f = false /\ forallb Json.scalar nm = true).
  { intros nm f H. vm_compute in H. injection H as <- <-. split; vm_compute; reflexivity. }
  split; [exact Hg | split; [exact Hnow | split; [exact Hv|]]].
  exact (X9_good_store_preserved _ _ _ _ Hg Hnow Hv).
Defined.
